(** * Verification of the buzzline consumers

    A shallow embedding of [consumers/csv_consumer_prince.py] (rolling
    window and stall detection) and [consumers/json_consumer_prince.py]
    (price series per symbol), with the part of the Python runtime the two
    modules call, and the properties of the specification proved on it. *)

From Stdlib Require Import ZArith List String Ascii Bool Lia Floats.
From stdpp Require Import base option list countable gmap strings.
From Stdlib Require QArith Qpower.

Import ListNotations.
Local Open Scope string_scope.
Local Open Scope Z_scope.
Local Open Scope list_scope.

#[local] Set Warnings "-inexact-float,-register-all".

(** ** Exceptions and outcomes

    The subclasses of [Exception] that the modelled code can raise. The two
    consumers catch [json.JSONDecodeError] first and every other
    [Exception] afterwards. *)

Inductive exn : Type :=
| JSONDecodeError
| TypeError
| ValueError
| AttributeError
| OverflowError
| UnicodeDecodeError
| RecursionError.

Inductive result (A : Type) : Type :=
| Ok (a : A)
| Raise (e : exn).

Arguments Ok {A} a.
Arguments Raise {A} e.

Definition exn_eqb (a b : exn) : bool :=
  match a, b with
  | JSONDecodeError, JSONDecodeError
  | TypeError, TypeError
  | ValueError, ValueError
  | AttributeError, AttributeError
  | OverflowError, OverflowError
  | UnicodeDecodeError, UnicodeDecodeError
  | RecursionError, RecursionError => true
  | _, _ => false
  end.

(** ** Python values

    The values [json.loads] builds: [None], [bool], [int], [float], [str],
    [list] and [dict] with [str] keys. A [str] is held as the bytes of its
    UTF-8 encoding; a [dict] as the list of its items in insertion order. *)

Inductive pyval : Type :=
| PNone
| PBool (b : bool)
| PInt (z : Z)
| PFloat (f : float)
| PStr (s : string)
| PList (l : list pyval)
| PDict (d : list (string * pyval)).

(** ** The monad of a consumer

    A computation reads and updates the store [S] its module owns (the
    rolling window, the price table), emits log records [L], and returns a
    value or raises. A store update made before an exception is kept, as
    for a Python object mutated in place. *)

Section Monad.
Context {S L : Type}.

Definition M (A : Type) : Type := S -> result A * S * list L.

Definition ret {A} (a : A) : M A := fun s => (Ok a, s, []).

(** The run [x], after the records [l] were logged. *)
Definition prepend {A} (l : list L) (x : result A * S * list L)
  : result A * S * list L :=
  let '(r, s, l') := x in (r, s, l ++ l').

Definition bind {A B} (m : M A) (k : A -> M B) : M B :=
  fun s =>
    match m s with
    | (Ok a, s1, l1) => prepend l1 (k a s1)
    | (Raise e, s1, l1) => (Raise e, s1, l1)
    end.

Definition lift {A} (r : result A) : M A := fun s => (r, s, []).

Definition emit (l : L) : M unit := fun s => (Ok tt, s, [l]).

Definition get : M S := fun s => (Ok s, s, []).

Definition put (s : S) : M unit := fun _ => (Ok tt, s, []).

(** [try: body except Exception as e: handler e] *)
Definition try_except {A} (body : M A) (handler : exn -> M A) : M A :=
  fun s =>
    match body s with
    | (Ok a, s1, l1) => (Ok a, s1, l1)
    | (Raise e, s1, l1) => prepend l1 (handler e s1)
    end.

(** What a run returns, the store it leaves and what it logs. *)
Definition outcome {A} (x : result A * S * list L) : result A := fst (fst x).
Definition store {A} (x : result A * S * list L) : S := snd (fst x).
Definition logged {A} (x : result A * S * list L) : list L := snd x.
End Monad.

Arguments M : clear implicits.

Declare Scope py_scope.
Delimit Scope py_scope with py.
Notation "x <- c1 ;; c2" := (bind c1 (fun x => c2))
  (at level 100, c1 at next level, right associativity) : py_scope.
Notation "c1 ;; c2" := (bind c1 (fun _ => c2))
  (at level 100, right associativity) : py_scope.

(** ** Numbers

    [bool] is a subclass of [int]; [int] is unbounded; [float] is IEEE 754
    binary64. Comparisons between an [int] and a [float] are exact,
    arithmetic between them first converts the [int] to a [float]. *)

Inductive num : Type :=
| NInt (z : Z)
| NFloat (f : float).

Definition as_num (v : pyval) : option num :=
  match v with
  | PBool b => Some (NInt (if b then 1 else 0))
  | PInt z => Some (NInt z)
  | PFloat f => Some (NFloat f)
  | _ => None
  end.

(** The three comparison operators the consumers use: [<] (in [min]),
    [>] (in [max]) and [<=] (against the threshold). *)
Inductive cmpop : Type := Py_LT | Py_LE | Py_GT.

Definition cmp_holds (op : cmpop) (c : option comparison) : bool :=
  match op, c with
  | Py_LT, Some Lt => true
  | Py_LE, Some Lt => true
  | Py_LE, Some Eq => true
  | Py_GT, Some Gt => true
  | _, _ => false
  end.

(** Exact comparison of a [float] with an [int]; [None] for a NaN. *)
Definition float_compare_Z (f : float) (z : Z) : option comparison :=
  match Prim2SF f with
  | S754_nan => None
  | S754_infinity s => Some (if s then Lt else Gt)
  | S754_zero _ => Some (0 ?= z)
  | S754_finite s m e =>
      let v := if s then Z.neg m else Z.pos m in
      if 0 <=? e then Some (v * 2 ^ e ?= z) else Some (v ?= z * 2 ^ (- e))
  end.

Definition float_richcompare (op : cmpop) (x y : float) : bool :=
  match op with
  | Py_LT => PrimFloat.ltb x y
  | Py_LE => PrimFloat.leb x y
  | Py_GT => PrimFloat.ltb y x
  end.

Definition num_richcompare (op : cmpop) (a b : num) : bool :=
  match a, b with
  | NInt x, NInt y => cmp_holds op (Some (x ?= y))
  | NFloat x, NFloat y => float_richcompare op x y
  | NFloat x, NInt y => cmp_holds op (float_compare_Z x y)
  | NInt x, NFloat y => cmp_holds op (option_map CompOpp (float_compare_Z y x))
  end.

Definition num_eq (a b : num) : bool :=
  match a, b with
  | NInt x, NInt y => x =? y
  | NFloat x, NFloat y => PrimFloat.eqb x y
  | NFloat x, NInt y
  | NInt y, NFloat x =>
      match float_compare_Z x y with Some Eq => true | _ => false end
  end.

(** [float(z)] for an [int] operand of float arithmetic: rounded to nearest
    even, [OverflowError] when the rounded value is not finite. *)
Definition float_of_int (z : Z) : result float :=
  match binary_normalize prec emax z 0 false with
  | S754_infinity _ => Raise OverflowError
  | sf => Ok (SF2Prim sf)
  end.

Definition num_sub (a b : num) : result num :=
  match a, b with
  | NInt x, NInt y => Ok (NInt (x - y))
  | NFloat x, NFloat y => Ok (NFloat (x - y)%float)
  | NFloat x, NInt y =>
      match float_of_int y with
      | Ok fy => Ok (NFloat (x - fy)%float)
      | Raise e => Raise e
      end
  | NInt x, NFloat y =>
      match float_of_int x with
      | Ok fx => Ok (NFloat (fx - y)%float)
      | Raise e => Raise e
      end
  end.

Definition of_num (n : num) : pyval :=
  match n with
  | NInt z => PInt z
  | NFloat f => PFloat f
  end.

(** ** Operators on values *)

Fixpoint assoc_get {A} (k : string) (d : list (string * A)) : option A :=
  match d with
  | [] => None
  | (k', v) :: d' => if String.eqb k k' then Some v else assoc_get k d'
  end.

(** [a is b or a == b], the test containers apply to their members. The
    decoder hands out one NaN object, so two NaN members are the same
    object. *)
Fixpoint py_same_or_eq (a b : pyval) {struct a} : bool :=
  match a, b with
  | PNone, PNone => true
  | PStr s, PStr t => String.eqb s t
  | PFloat x, PFloat y => PrimFloat.eqb x y || (is_nan x && is_nan y)
  | PList xs, PList ys =>
      (fix all2 (xs ys : list pyval) {struct xs} : bool :=
         match xs, ys with
         | [], [] => true
         | x :: xs', y :: ys' => py_same_or_eq x y && all2 xs' ys'
         | _, _ => false
         end) xs ys
  | PDict d1, PDict d2 =>
      Nat.eqb (length d1) (length d2) &&
      (fix all (d : list (string * pyval)) : bool :=
         match d with
         | [] => true
         | (k, v) :: d' =>
             match assoc_get k d2 with
             | Some w => py_same_or_eq v w && all d'
             | None => false
             end
         end) d1
  | _, _ =>
      match as_num a, as_num b with
      | Some x, Some y => num_eq x y
      | _, _ => false
      end
  end.

(** [a op b] for [op] one of [<], [<=], [>]: defined between numbers,
    between strings (by code point, which is the byte order of UTF-8) and
    between lists (at the first pair of members that differ, else by
    length); a [TypeError] otherwise. *)
Fixpoint py_richcompare (op : cmpop) (a b : pyval) {struct a} : result bool :=
  match a, b with
  | PStr s, PStr t => Ok (cmp_holds op (Some (String.compare s t)))
  | PList xs, PList ys =>
      (fix first_diff (xs ys : list pyval) {struct xs} : result bool :=
         match xs, ys with
         | x :: xs', y :: ys' =>
             if py_same_or_eq x y then first_diff xs' ys'
             else py_richcompare op x y
         | _, _ =>
             Ok (cmp_holds op
                   (Some (Z.of_nat (length xs) ?= Z.of_nat (length ys))))
         end) xs ys
  | _, _ =>
      match as_num a, as_num b with
      | Some x, Some y => Ok (num_richcompare op x y)
      | _, _ => Raise TypeError
      end
  end.

(** [a - b]: numbers only. *)
Definition py_sub (a b : pyval) : result pyval :=
  match as_num a, as_num b with
  | Some x, Some y =>
      match num_sub x y with
      | Ok n => Ok (of_num n)
      | Raise e => Raise e
      end
  | _, _ => Raise TypeError
  end.

(** The replacement field [{v}] of an f-string, for a number [v]: the
    text of an [int] is refused with [ValueError] when it has more than
    4300 decimal digits ([sys.int_info.default_max_str_digits]); a [bool]
    and a [float] always have a text. Only the failure is modelled, the
    text itself goes into the log record as the value. The standard
    decoder applies the same limit to the digits it reads, so that a
    number it built has a text; the difference of two such numbers need
    not. *)
Definition max_str_digits : Z := 4300.

Definition int_str_digits (z : Z) : Z :=
  Z.of_nat (Decimal.nb_digits (N.to_uint (Z.abs_N z))).

Definition py_format (v : pyval) : result unit :=
  match v with
  | PInt z =>
      if max_str_digits <? int_str_digits z then Raise ValueError else Ok tt
  | _ => Ok tt
  end.

(** [max(iterable)] and [min(iterable)]: the first item is the candidate,
    a later item replaces it when it is strictly greater (smaller), so
    that the first of several extremal items is returned; [ValueError] on
    an empty iterable. *)
Fixpoint extremum_loop (op : cmpop) (best : pyval) (rest : list pyval)
  : result pyval :=
  match rest with
  | [] => Ok best
  | item :: rest' =>
      match py_richcompare op item best with
      | Ok true => extremum_loop op item rest'
      | Ok false => extremum_loop op best rest'
      | Raise e => Raise e
      end
  end.

Definition py_max (l : list pyval) : result pyval :=
  match l with
  | [] => Raise ValueError
  | x :: rest => extremum_loop Py_GT x rest
  end.

Definition py_min (l : list pyval) : result pyval :=
  match l with
  | [] => Raise ValueError
  | x :: rest => extremum_loop Py_LT x rest
  end.

(** ** The decoder [json.loads], on text

    A scanner for the grammar the standard decoder accepts: the JSON
    values, with [NaN], [Infinity] and [-Infinity], surrounded by blanks.
    Numbers without fraction and exponent become [int], the others [float]
    (correctly rounded); a repeated key keeps its first place and its last
    value. Any failure is a [JSONDecodeError]. The recursion limit and the
    digit limit of [int] are not modelled. *)

Module json.

Definition code (c : ascii) : Z := Z.of_N (N_of_ascii c).

Definition chr (z : Z) : ascii := ascii_of_N (Z.to_N z).

Definition is_ws (c : ascii) : bool :=
  let n := code c in (n =? 32) || (n =? 9) || (n =? 10) || (n =? 13).

Definition is_digit (c : ascii) : bool :=
  let n := code c in (48 <=? n) && (n <=? 57).

Fixpoint skip_ws (s : string) : string :=
  match s with
  | String c r => if is_ws c then skip_ws r else s
  | EmptyString => s
  end.

(** [s] starts with [p]: what follows [p]. *)
Fixpoint strip_prefix (p s : string) : option string :=
  match p, s with
  | EmptyString, _ => Some s
  | String a p', String b s' =>
      if Ascii.eqb a b then strip_prefix p' s' else None
  | String _ _, EmptyString => None
  end.

(** *** Strings *)

Definition hex_digit (c : ascii) : option Z :=
  let n := code c in
  if (48 <=? n) && (n <=? 57) then Some (n - 48)
  else if (97 <=? n) && (n <=? 102) then Some (n - 87)
  else if (65 <=? n) && (n <=? 70) then Some (n - 55)
  else None.

Definition hex4 (s : string) : option (Z * string) :=
  match s with
  | String a (String b (String c (String d r))) =>
      match hex_digit a, hex_digit b, hex_digit c, hex_digit d with
      | Some x, Some y, Some z, Some w =>
          Some (((x * 16 + y) * 16 + z) * 16 + w, r)
      | _, _, _, _ => None
      end
  | _ => None
  end.

(** The UTF-8 bytes of a code point (three bytes for a lone surrogate). *)
Definition utf8 (cp : Z) : string :=
  if cp <? 128 then String (chr cp) EmptyString
  else if cp <? 2048 then
    String (chr (192 + cp / 64)) (String (chr (128 + cp mod 64)) EmptyString)
  else if cp <? 65536 then
    String (chr (224 + cp / 4096))
      (String (chr (128 + (cp / 64) mod 64))
         (String (chr (128 + cp mod 64)) EmptyString))
  else
    String (chr (240 + cp / 262144))
      (String (chr (128 + (cp / 4096) mod 64))
         (String (chr (128 + (cp / 64) mod 64))
            (String (chr (128 + cp mod 64)) EmptyString))).

Definition is_high_surrogate (cp : Z) : bool := (55296 <=? cp) && (cp <=? 56319).
Definition is_low_surrogate (cp : Z) : bool := (56320 <=? cp) && (cp <=? 57343).

(** After [\u]: the code point, a surrogate pair joined, and the rest. *)
Definition unicode_escape (s : string) : option (Z * string) :=
  match hex4 s with
  | None => None
  | Some (c, r) =>
      if is_high_surrogate c then
        match strip_prefix "\u" r with
        | Some r2 =>
            match hex4 r2 with
            | None => None
            | Some (c2, r3) =>
                if is_low_surrogate c2
                then Some (65536 + (c - 55296) * 1024 + (c2 - 56320), r3)
                else Some (c, r)
            end
        | None => Some (c, r)
        end
      else Some (c, r)
  end.

(** The one-letter escapes: quote, backslash, slash, b, f, n, r, t. *)
Definition simple_escape (c : ascii) : option ascii :=
  let n := code c in
  if n =? 34 then Some (chr 34)
  else if n =? 92 then Some (chr 92)
  else if n =? 47 then Some (chr 47)
  else if n =? 98 then Some (chr 8)
  else if n =? 102 then Some (chr 12)
  else if n =? 110 then Some (chr 10)
  else if n =? 114 then Some (chr 13)
  else if n =? 116 then Some (chr 9)
  else None.

(** The text after an opening quote, up to the closing one. *)
Fixpoint scanstring (fuel : nat) (s : string) : option (string * string) :=
  match fuel with
  | O => None
  | S fuel' =>
      match s with
      | EmptyString => None
      | String c r =>
          let n := code c in
          if n =? 34 then Some (EmptyString, r)
          else if n <? 32 then None
          else if n =? 92 then
            match r with
            | EmptyString => None
            | String e r' =>
                if code e =? 117 then
                  match unicode_escape r' with
                  | Some (cp, r2) =>
                      match scanstring fuel' r2 with
                      | Some (t, r3) => Some (utf8 cp ++ t, r3)%string
                      | None => None
                      end
                  | None => None
                  end
                else
                  match simple_escape e with
                  | Some x =>
                      match scanstring fuel' r' with
                      | Some (t, r3) => Some (String x t, r3)
                      | None => None
                      end
                  | None => None
                  end
            end
          else
            match scanstring fuel' r with
            | Some (t, r3) => Some (String c t, r3)
            | None => None
            end
      end
  end.

(** *** Numbers *)

Fixpoint digits (s : string) : string * string :=
  match s with
  | String c r =>
      if is_digit c then let '(d, r') := digits r in (String c d, r')
      else (EmptyString, s)
  | EmptyString => (EmptyString, s)
  end.

Fixpoint int_of_digits (acc : Z) (d : string) : Z :=
  match d with
  | String c r => int_of_digits (acc * 10 + (code c - 48)) r
  | EmptyString => acc
  end.

(** The binary64 nearest to [m * 10 ^ e] ([0 <= m]), ties to even, with
    the sign [neg]. For [e < 0] the quotient is taken with more than 64
    bits and the position of the remainder is handed to the rounding. *)
Definition float_of_decimal (neg : bool) (m e : Z) : float :=
  if m =? 0 then SF2Prim (S754_zero neg)
  else if 0 <=? e then
    SF2Prim (binary_normalize prec emax
               (if neg then - (m * 10 ^ e) else m * 10 ^ e) 0 neg)
  else
    let d := 10 ^ (- e) in
    let s := Z.max 0 (64 + Z.log2_up d - Z.log2 m) in
    let n := m * 2 ^ s in
    let q := n / d in
    let r := n mod d in
    let loc := if r =? 0 then loc_Exact else loc_Inexact (2 * r ?= d) in
    SF2Prim (binary_round_aux prec emax neg q (- s) loc).

Definition is_empty (s : string) : bool :=
  match s with EmptyString => true | _ => false end.

(** The longest prefix made of an optional minus sign, an integer part
    (a lone zero, or digits that do not start with zero), an optional
    fraction (a dot and digits) and an optional exponent (e or E, an
    optional sign, digits). *)
Definition match_number (s : string) : option (pyval * string) :=
  let '(neg, s1) :=
    match s with
    | String c r => if code c =? 45 then (true, r) else (false, s)
    | EmptyString => (false, s)
    end in
  match s1 with
  | EmptyString => None
  | String c r =>
      if negb (is_digit c) then None
      else
        let '(ip, s2) :=
          if code c =? 48 then (String c EmptyString, r) else digits s1 in
        let '(fp, s3) :=
          match s2 with
          | String p r2 =>
              if code p =? 46 then
                let '(f, r3) := digits r2 in
                if is_empty f then (EmptyString, s2) else (f, r3)
              else (EmptyString, s2)
          | EmptyString => (EmptyString, s2)
          end in
        let '(ex, s4) :=
          match s3 with
          | String p r3 =>
              if (code p =? 101) || (code p =? 69) then
                let '(eneg, r4) :=
                  match r3 with
                  | String g r4 =>
                      if code g =? 45 then (true, r4)
                      else if code g =? 43 then (false, r4)
                      else (false, r3)
                  | EmptyString => (false, r3)
                  end in
                let '(ed, r5) := digits r4 in
                if is_empty ed then (None, s3)
                else
                  let v := int_of_digits 0 ed in
                  (Some (if eneg then - v else v), r5)
              else (None, s3)
          | EmptyString => (None, s3)
          end in
        if is_empty fp && negb (bool_decide (is_Some ex)) then
          let v := int_of_digits 0 ip in
          Some (PInt (if neg then - v else v), s4)
        else
          let m := int_of_digits 0 (ip ++ fp)%string in
          let e := default 0 ex - Z.of_nat (String.length fp) in
          Some (PFloat (float_of_decimal neg m e), s4)
  end.

(** *** Values *)

(** [d[k] = v]: a key already present keeps its place. *)
Fixpoint dict_set (k : string) (v : pyval) (d : list (string * pyval))
  : list (string * pyval) :=
  match d with
  | [] => [(k, v)]
  | (k', v') :: d' =>
      if String.eqb k k' then (k', v) :: d' else (k', v') :: dict_set k v d'
  end.

Fixpoint scan_once (fuel : nat) (s : string) : option (pyval * string) :=
  match fuel with
  | O => None
  | S fuel' =>
      match s with
      | EmptyString => None
      | String c r =>
          let n := code c in
          if n =? 34 then
            match scanstring (S (String.length r)) r with
            | Some (t, r') => Some (PStr t, r')
            | None => None
            end
          else if n =? 123 then
            match skip_ws r with
            | String c' r' =>
                if code c' =? 125 then Some (PDict [], r')
                else parse_members fuel' [] (String c' r')
            | EmptyString => None
            end
          else if n =? 91 then
            match skip_ws r with
            | String c' r' =>
                if code c' =? 93 then Some (PList [], r')
                else parse_elements fuel' [] (String c' r')
            | EmptyString => None
            end
          else
            match strip_prefix "null" s with
            | Some r' => Some (PNone, r')
            | None =>
            match strip_prefix "true" s with
            | Some r' => Some (PBool true, r')
            | None =>
            match strip_prefix "false" s with
            | Some r' => Some (PBool false, r')
            | None =>
            match strip_prefix "NaN" s with
            | Some r' => Some (PFloat nan, r')
            | None =>
            match strip_prefix "Infinity" s with
            | Some r' => Some (PFloat infinity, r')
            | None =>
            match strip_prefix "-Infinity" s with
            | Some r' => Some (PFloat neg_infinity, r')
            | None => match_number s
            end end end end end end
      end
  end

(** At a key of an object whose earlier items are [acc]. *)
with parse_members (fuel : nat) (acc : list (string * pyval)) (s : string)
  : option (pyval * string) :=
  match fuel with
  | O => None
  | S fuel' =>
      match s with
      | String q r =>
          if negb (code q =? 34) then None
          else
            match scanstring (S (String.length r)) r with
            | None => None
            | Some (k, r1) =>
                match skip_ws r1 with
                | String colon r2 =>
                    if negb (code colon =? 58) then None
                    else
                      match scan_once fuel' (skip_ws r2) with
                      | None => None
                      | Some (v, r3) =>
                          let acc' := dict_set k v acc in
                          match skip_ws r3 with
                          | String e r4 =>
                              if code e =? 125 then Some (PDict acc', r4)
                              else if code e =? 44
                              then parse_members fuel' acc' (skip_ws r4)
                              else None
                          | EmptyString => None
                          end
                      end
                | EmptyString => None
                end
            end
      | EmptyString => None
      end
  end

(** At a member of an array whose earlier members are [acc]. *)
with parse_elements (fuel : nat) (acc : list pyval) (s : string)
  : option (pyval * string) :=
  match fuel with
  | O => None
  | S fuel' =>
      match scan_once fuel' s with
      | None => None
      | Some (v, r1) =>
          match skip_ws r1 with
          | String e r2 =>
              if code e =? 93 then Some (PList (acc ++ [v]), r2)
              else if code e =? 44
              then parse_elements fuel' (acc ++ [v]) (skip_ws r2)
              else None
          | EmptyString => None
          end
      end
  end.

(** [json.loads(s)] for a [str]: one value between blanks, nothing else. *)
Definition loads (s : string) : result pyval :=
  match scan_once (2 * String.length s + 2) (skip_ws s) with
  | Some (v, r) =>
      if is_empty (skip_ws r) then Ok v else Raise JSONDecodeError
  | None => Raise JSONDecodeError
  end.
End json.

(** ** [bytes.decode("utf-8")]

    Text and bytes are both held as byte strings, so decoding returns its
    argument when it is well-formed UTF-8 and raises otherwise. *)

Definition in_range (lo hi : Z) (c : ascii) : bool :=
  (lo <=? json.code c) && (json.code c <=? hi).

Fixpoint utf8_well_formed (b : string) : bool :=
  match b with
  | EmptyString => true
  | String c0 r =>
      let n := json.code c0 in
      if n <? 128 then utf8_well_formed r
      else if (194 <=? n) && (n <=? 223) then
        match r with
        | String c1 r' => in_range 128 191 c1 && utf8_well_formed r'
        | _ => false
        end
      else if (224 <=? n) && (n <=? 239) then
        match r with
        | String c1 (String c2 r') =>
            in_range (if n =? 224 then 160 else 128)
                     (if n =? 237 then 159 else 191) c1
            && in_range 128 191 c2 && utf8_well_formed r'
        | _ => false
        end
      else if (240 <=? n) && (n <=? 244) then
        match r with
        | String c1 (String c2 (String c3 r')) =>
            in_range (if n =? 240 then 144 else 128)
                     (if n =? 244 then 143 else 191) c1
            && in_range 128 191 c2 && in_range 128 191 c3
            && utf8_well_formed r'
        | _ => false
        end
      else false
  end.

Definition bytes_decode (b : string) : result string :=
  if utf8_well_formed b then Ok b else Raise UnicodeDecodeError.

(** ** Methods of [dict] *)

(** [d.get(key)] and [d.get(key, default)]; a value that is not a [dict]
    has no such method. *)
Definition py_get (v : pyval) (key : string) (dflt : pyval) : result pyval :=
  match v with
  | PDict d => Ok (default dflt (assoc_get key d))
  | _ => Raise AttributeError
  end.

(** [isinstance(v, dict)]. *)
Definition is_dict (v : pyval) : bool :=
  match v with PDict _ => true | _ => false end.

Definition is_None (v : pyval) : bool :=
  match v with PNone => true | _ => false end.

(** [None in (v1, ..., vn)]: no other value equals [None]. *)
Definition None_in (t : list pyval) : bool := existsb is_None t.

(** ** Keys of a [dict]

    Two hashable values are the same key when they are equal: a [bool], an
    [int] and a [float] of one value are one key, and so are the two
    zeros; every other [float] is a key by its sign, mantissa and
    exponent. A [list] or a [dict] is not hashable. *)

Inductive pykey : Type :=
| KNone
| KInt (z : Z)
| KFloat (sf : spec_float)
| KStr (s : string).

Definition float_key (f : float) : pykey :=
  match Prim2SF f with
  | S754_zero _ => KInt 0
  | S754_finite s m e =>
      let v := if s then Z.neg m else Z.pos m in
      if 0 <=? e then KInt (v * 2 ^ e)
      else if Z.pos m mod 2 ^ (- e) =? 0 then KInt (v / 2 ^ (- e))
      else KFloat (S754_finite s m e)
  | sf => KFloat sf
  end.

Definition py_key (v : pyval) : result pykey :=
  match v with
  | PNone => Ok KNone
  | PBool b => Ok (KInt (if b then 1 else 0))
  | PInt z => Ok (KInt z)
  | PFloat f => Ok (float_key f)
  | PStr s => Ok (KStr s)
  | PList _ | PDict _ => Raise TypeError
  end.

#[global] Instance spec_float_eq_dec : EqDecision spec_float.
Proof. solve_decision. Defined.

#[global] Instance pykey_eq_dec : EqDecision pykey.
Proof. solve_decision. Defined.

Definition pykey_encode (k : pykey)
  : unit + Z + (unit + bool + bool + bool * positive * Z) + string :=
  match k with
  | KNone => inl (inl (inl tt))
  | KInt z => inl (inl (inr z))
  | KFloat S754_nan => inl (inr (inl (inl (inl tt))))
  | KFloat (S754_zero s) => inl (inr (inl (inl (inr s))))
  | KFloat (S754_infinity s) => inl (inr (inl (inr s)))
  | KFloat (S754_finite s m e) => inl (inr (inr (s, m, e)))
  | KStr s => inr s
  end.

Definition pykey_decode
  (x : unit + Z + (unit + bool + bool + bool * positive * Z) + string) : pykey :=
  match x with
  | inl (inl (inl _)) => KNone
  | inl (inl (inr z)) => KInt z
  | inl (inr (inl (inl (inl _)))) => KFloat S754_nan
  | inl (inr (inl (inl (inr s)))) => KFloat (S754_zero s)
  | inl (inr (inl (inr s))) => KFloat (S754_infinity s)
  | inl (inr (inr (s, m, e))) => KFloat (S754_finite s m e)
  | inr s => KStr s
  end.

#[global] Instance pykey_countable : Countable pykey.
Proof.
  apply (inj_countable' pykey_encode pykey_decode).
  intros [| z | [] | s]; reflexivity.
Defined.

(** ** [collections.deque] with a bound

    [deque(maxlen=n)] converts the bound to a [Py_ssize_t], of 64 bits,
    with [OverflowError] when it does not fit, and then refuses a negative
    bound with [ValueError]. [append] adds at the right end and, when the
    length then exceeds the bound, removes the leftmost item. *)

Record deque : Type := { items : list pyval; maxlen : Z }.

Definition PY_SSIZE_T_MAX : Z := 2 ^ 63 - 1.
Definition PY_SSIZE_T_MIN : Z := - PY_SSIZE_T_MAX - 1.

Definition deque_new (n : Z) : result deque :=
  if (n <? PY_SSIZE_T_MIN) || (PY_SSIZE_T_MAX <? n) then Raise OverflowError
  else if n <? 0 then Raise ValueError
  else Ok {| items := []; maxlen := n |}.

Definition deque_append (x : pyval) (d : deque) : deque :=
  let l := items d ++ [x] in
  {| items := if maxlen d <? Z.of_nat (length l) then tail l else l;
     maxlen := maxlen d |}.

Definition deque_len (d : deque) : Z := Z.of_nat (length (items d)).

(** ** Logging and Kafka records *)

Inductive level : Type := DEBUG | INFO | WARNING | ERROR.

(** The value of a record delivered by the consumer: text, or bytes. *)
Inductive record_value : Type :=
| VStr (s : string)
| VBytes (b : string).

Record ConsumerRecord : Type := { offset : Z; value : record_value }.

(** ** consumers/csv_consumer_prince.py *)

Module csv_consumer_prince.

(** The variables the module reads from the environment, [None] when
    unset. A numeric variable is held as what [float] or [int] makes of
    its text: a value, or [ValueError]. *)
Record environ : Type := {
  HEALTH_TOPIC : option string;
  HEALTH_CONSUMER_GROUP_ID : option string;
  HEALTH_STALL_THRESHOLD_F : option (result float);
  HEALTH_ROLLING_WINDOW_SIZE : option (result Z)
}.

(** One constructor for each call of the logger, with the values its
    message is formatted from. *)
Inductive log_msg : Type :=
| Kafka_topic (topic : string)
| Kafka_consumer_group_id (group_id : string)
| Max_stall_range (stall_threshold : float)
| Rolling_window_size (window_size : Z)
| Waiting_for (len WINDOW_SIZE : Z)
| Range_stalled (range_value : pyval) (is_stalled : bool)
| Raw_message (message : string)
| Processed_JSON_message (data : pyval)
| Invalid_message_format (message : string)
| STALL_DETECTED (timestamp calories_burned : pyval) (window_size : Z)
| JSON_decoding_error (message : string)
| Error_processing_message (message : string) (e : exn)
| START_consumer
| Consumer_topic_group (topic group_id : string)
| Polling_messages (topic : string)
| Received_message (offset : Z) (message_str : string)
| Error_while_consuming (e : exn)
| Consumer_closed (topic : string).

Definition log_record : Type := level * log_msg.

(** [message.value] when it is a [str], else [message.value.decode("utf-8")]. *)
Definition message_str_of (message : ConsumerRecord) : result string :=
  match value message with
  | VStr s => Ok s
  | VBytes b => bytes_decode b
  end.

Section Consumer.

Variable json_loads : string -> result pyval.
Variable os_environ : environ.

Local Open Scope py_scope.

Definition get_kafka_topic {S} : M S log_record string :=
  let topic := default "unknown_topic" (HEALTH_TOPIC os_environ) in
  emit (INFO, Kafka_topic topic);;
  ret topic.

Definition get_kafka_consumer_group_id {S} : M S log_record string :=
  let group_id := default "default_group" (HEALTH_CONSUMER_GROUP_ID os_environ) in
  emit (INFO, Kafka_consumer_group_id group_id);;
  ret group_id.

Definition get_stall_threshold {S} : M S log_record float :=
  stall_threshold <-
    lift (default (Ok 0.2%float) (HEALTH_STALL_THRESHOLD_F os_environ));;
  emit (INFO, Max_stall_range stall_threshold);;
  ret stall_threshold.

Definition get_rolling_window_size {S} : M S log_record Z :=
  window_size <- lift (default (Ok 5) (HEALTH_ROLLING_WINDOW_SIZE os_environ));;
  emit (INFO, Rolling_window_size window_size);;
  ret window_size.

Definition detect_stall {S} (rolling_window_deque : deque) : M S log_record bool :=
  WINDOW_SIZE <- get_rolling_window_size;;
  if deque_len rolling_window_deque <? WINDOW_SIZE then
    emit (DEBUG, Waiting_for (deque_len rolling_window_deque) WINDOW_SIZE);;
    ret false
  else
    largest <- lift (py_max (items rolling_window_deque));;
    smallest <- lift (py_min (items rolling_window_deque));;
    range_value <- lift (py_sub largest smallest);;
    stall_threshold <- get_stall_threshold;;
    is_stalled <- lift (py_richcompare Py_LE range_value (PFloat stall_threshold));;
    lift (py_format range_value);;
    emit (DEBUG, Range_stalled range_value is_stalled);;
    ret is_stalled.

(** The store is the deque [rolling_window] the caller passes in. *)
Definition process_message (message : string) (window_size : Z)
  : M deque log_record unit :=
  try_except
    (emit (DEBUG, Raw_message message);;
     data <- lift (json_loads message);;
     timestamp <- lift (py_get data "timestamp" PNone);;
     steps <- lift (py_get data "steps" PNone);;
     heart_rate <- lift (py_get data "heart_rate" PNone);;
     calories_burned <- lift (py_get data "calories_burned" PNone);;
     sleep_hours <- lift (py_get data "sleep_hours" PNone);;
     hydration_liters <- lift (py_get data "hydration_liters" PNone);;
     emit (INFO, Processed_JSON_message data);;
     if None_in [timestamp; steps; heart_rate; calories_burned; sleep_hours;
                 hydration_liters]
     then emit (ERROR, Invalid_message_format message)
     else
       rolling_window <- get;;
       put (deque_append calories_burned rolling_window);;
       rolling_window <- get;;
       stalled <- detect_stall rolling_window;;
       if stalled
       then emit (INFO, STALL_DETECTED timestamp calories_burned window_size)
       else ret tt)
    (fun e =>
       if exn_eqb e JSONDecodeError
       then emit (ERROR, JSON_decoding_error message)
       else emit (ERROR, Error_processing_message message e)).

(** The loop of [main] over the records the consumer delivers. *)
Fixpoint poll (consumer : list ConsumerRecord) (window_size : Z)
  : M deque log_record unit :=
  match consumer with
  | [] => ret tt
  | message :: rest =>
      message_str <- lift (message_str_of message);;
      emit (DEBUG, Received_message (offset message) message_str);;
      process_message message_str window_size;;
      poll rest window_size
  end.

(** [main], given the records the consumer delivers before it stops. It
    returns the rolling window as the loop left it; an exception leaves
    [main] only from the code before the loop. *)
Definition main (consumer : list ConsumerRecord)
  : result deque * list log_record :=
  let '(r, _, l0) :=
    (emit (INFO, START_consumer);;
     topic <- get_kafka_topic;;
     group_id <- get_kafka_consumer_group_id;;
     window_size <- get_rolling_window_size;;
     emit (INFO, Consumer_topic_group topic group_id);;
     emit (INFO, Rolling_window_size window_size);;
     rolling_window <- lift (deque_new window_size);;
     ret (topic, window_size, rolling_window)) tt in
  match r with
  | Raise e => (Raise e, l0)
  | Ok (topic, window_size, rolling_window) =>
      let '(_, rolling_window', l1) :=
        try_except
          (emit (INFO, Polling_messages topic);;
           poll consumer window_size)
          (fun e => emit (ERROR, Error_while_consuming e))
          rolling_window in
      (Ok rolling_window', l0 ++ l1 ++ [(INFO, Consumer_closed topic)])
  end.

End Consumer.

End csv_consumer_prince.

(** ** consumers/json_consumer_prince.py *)

Module json_consumer_prince.

Record environ : Type := {
  BUZZ_TOPIC : option string;
  BUZZ_CONSUMER_GROUP_ID : option string
}.

Inductive log_msg : Type :=
| Kafka_topic (topic : string)
| Kafka_consumer_group_id (group_id : string)
| Raw_message (message : string)
| Processed_JSON_message (message_dict : pyval)
| Message_received (symbol price timestamp : pyval)
| Updated_prices (symbol : pyval) (prices : list pyval)
| Expected_a_dictionary (message_dict : pyval)
| Invalid_JSON_message (message : string)
| Error_processing_message (e : exn)
| START_consumer
| Consumer_topic_group (topic group_id : string)
| Polling_messages (topic : string)
| Received_message (offset : Z) (message_str : string)
| Error_while_consuming (e : exn)
| Consumer_closed (topic : string)
| END_consumer (topic group_id : string).

Definition log_record : Type := level * log_msg.

(** The table of the module: the list of prices under each symbol that
    has one. [stock_prices = defaultdict(list)] starts it empty. *)
Abbreviation price_table := (gmap pykey (list pyval)).

Definition stock_prices : price_table := ∅.

Section Consumer.

Variable json_loads : string -> result pyval.
Variable os_environ : environ.

Local Open Scope py_scope.

Definition get_kafka_topic {S} : M S log_record string :=
  let topic := default "stock_prices_topic" (BUZZ_TOPIC os_environ) in
  emit (INFO, Kafka_topic topic);;
  ret topic.

Definition get_kafka_consumer_group_id {S} : M S log_record string :=
  let group_id := default "default_group" (BUZZ_CONSUMER_GROUP_ID os_environ) in
  emit (INFO, Kafka_consumer_group_id group_id);;
  ret group_id.

(** [stock_prices[symbol]]: the key of the list under [symbol]; when there
    is none yet, an empty list is stored first. *)
Definition getitem (symbol : pyval) : M price_table log_record pykey :=
  k <- lift (py_key symbol);;
  table <- get;;
  match table !! k with
  | Some _ => ret k
  | None => put (<[k := []]> table);; ret k
  end.

(** [.append(price)] on the list under [k]. *)
Definition list_append (k : pykey) (price : pyval)
  : M price_table log_record unit :=
  table <- get;;
  put (<[k := default [] (table !! k) ++ [price]]> table).

Definition process_message (message : string)
  : M price_table log_record unit :=
  try_except
    (emit (DEBUG, Raw_message message);;
     message_dict <- lift (json_loads message);;
     emit (INFO, Processed_JSON_message message_dict);;
     if is_dict message_dict then
       symbol <- lift (py_get message_dict "symbol" (PStr "unknown"));;
       price <- lift (py_get message_dict "price" (PFloat 0.0));;
       timestamp <- lift (py_get message_dict "timestamp" (PStr "unknown_time"));;
       emit (INFO, Message_received symbol price timestamp);;
       prices <- getitem symbol;;
       list_append prices price;;
       prices <- getitem symbol;;
       table <- get;;
       emit (INFO, Updated_prices symbol (default [] (table !! prices)))
     else emit (ERROR, Expected_a_dictionary message_dict))
    (fun e =>
       if exn_eqb e JSONDecodeError
       then emit (ERROR, Invalid_JSON_message message)
       else emit (ERROR, Error_processing_message e)).

(** The loop of [main]; the value of a record is text. *)
Fixpoint poll (consumer : list (Z * string)) : M price_table log_record unit :=
  match consumer with
  | [] => ret tt
  | (message_offset, message_str) :: rest =>
      emit (DEBUG, Received_message message_offset message_str);;
      process_message message_str;;
      poll rest
  end.

(** [main], given the records the consumer delivers before it stops, run
    on the table [stock_prices] of the module. *)
Definition main (consumer : list (Z * string))
  : M price_table log_record unit :=
  emit (INFO, START_consumer);;
  topic <- get_kafka_topic;;
  group_id <- get_kafka_consumer_group_id;;
  emit (INFO, Consumer_topic_group topic group_id);;
  try_except
    (emit (INFO, Polling_messages topic);;
     poll consumer)
    (fun e => emit (ERROR, Error_while_consuming e));;
  emit (INFO, Consumer_closed topic);;
  emit (INFO, END_consumer topic group_id).

End Consumer.

End json_consumer_prince.

(** ** Message bodies for the examples

    A body is written with an apostrophe wherever it has a double quote. *)

Fixpoint body (s : string) : string :=
  match s with
  | EmptyString => EmptyString
  | String c r =>
      String (if json.code c =? 39 then json.chr 34 else c) (body r)
  end.

(** ** The notions of the specification

    [max] and [min] of a window of floats in the words of the
    specification: the first value that no value of the window exceeds,
    and the first value that exceeds none. *)

Definition first_bound {A} (le : A -> A -> bool) (vs : list A) : option A :=
  find (fun m => forallb (fun x => le x m) vs) vs.

(** A scan that keeps its candidate unless the next item is better. *)
Definition scan {A} (better : A -> A -> bool) (best : A) (rest : list A) : A :=
  fold_left (fun b x => if better x b then x else b) rest best.

Definition window_max (vs : list float) : option float :=
  first_bound (fun x m => PrimFloat.leb x m) vs.

Definition window_min (vs : list float) : option float :=
  first_bound (fun x n => PrimFloat.leb n x) vs.

(** The configured window size and threshold, as the getters of the
    stall consumer read them. *)
Definition configured_window_size (e : csv_consumer_prince.environ) : result Z :=
  default (Ok 5) (csv_consumer_prince.HEALTH_ROLLING_WINDOW_SIZE e).

Definition configured_threshold (e : csv_consumer_prince.environ) : result float :=
  default (Ok 0.2%float) (csv_consumer_prince.HEALTH_STALL_THRESHOLD_F e).

(** A new window of capacity [w] after the values [vs] were appended, in
    that order. *)
Definition pushed (w : Z) (vs : list pyval) : deque :=
  fold_left (fun d v => deque_append v d) vs {| items := []; maxlen := w |}.

(** The last [n] items of a list. *)
Definition lastn {A} (n : nat) (l : list A) : list A := skipn (length l - n) l.

(** The fields the stall consumer requires, and a field that is missing
    from a payload or null in it. *)
Definition required_fields : list string :=
  ["timestamp"; "steps"; "heart_rate"; "calories_burned"; "sleep_hours";
   "hydration_liters"].

Definition missing_or_null (d : list (string * pyval)) (field : string) : bool :=
  match assoc_get field d with
  | None => true
  | Some PNone => true
  | Some _ => false
  end.

Definition incomplete (d : list (string * pyval)) : bool :=
  existsb (missing_or_null d) required_fields.

(** The metric of the complete reading the record [message] carries, if
    it carries one: its text decodes to an object with every required
    field present and not null. *)
Definition reading_of (json_loads : string -> result pyval)
    (message : ConsumerRecord) : option pyval :=
  match csv_consumer_prince.message_str_of message with
  | Ok message_str =>
      match json_loads message_str with
      | Ok (PDict d) =>
          if incomplete d then None else assoc_get "calories_burned" d
      | _ => None
      end
  | Raise _ => None
  end.

(** A decoded payload in which a required field is missing or null; a
    payload that is not an object has no field at all. *)
Definition lacks_required_field (v : pyval) : bool :=
  match v with
  | PDict d => incomplete d
  | _ => true
  end.

(** The symbol and the price the aggregation consumer reads off an object. *)
Definition payload_symbol (d : list (string * pyval)) : pyval :=
  default (PStr "unknown") (assoc_get "symbol" d).

Definition payload_price (d : list (string * pyval)) : pyval :=
  default (PFloat 0.0) (assoc_get "price" d).

(** The series stored for a key; no entry reads as the empty series. *)
Definition series (k : pykey) (table : gmap pykey (list pyval)) : list pyval :=
  default [] (table !! k).

(** What a message appends for the key [k]: the price of an object whose
    symbol is the key [k], nothing otherwise. *)
Definition appended (json_loads : string -> result pyval) (k : pykey)
    (message : string) : list pyval :=
  match json_loads message with
  | Ok (PDict d) =>
      match py_key (payload_symbol d) with
      | Ok k' => if decide (k' = k) then [payload_price d] else []
      | Raise _ => []
      end
  | _ => []
  end.

(** ** Example inputs *)

(** An environment that sets the window size and the threshold. *)
Definition stall_environ (w : Z) (t : float) : csv_consumer_prince.environ :=
  {| csv_consumer_prince.HEALTH_TOPIC := None;
     csv_consumer_prince.HEALTH_CONSUMER_GROUP_ID := None;
     csv_consumer_prince.HEALTH_STALL_THRESHOLD_F := Some (Ok t);
     csv_consumer_prince.HEALTH_ROLLING_WINDOW_SIZE := Some (Ok w) |}.

(** The body of a health reading with the given text for the metric. *)
Definition health_body (calories : string) : string :=
  body ("{'timestamp': '2025-01-11T18:15:00Z', 'steps': 12500, "
        ++ "'heart_rate': 80, 'calories_burned': " ++ calories
        ++ ", 'sleep_hours': 7.0, 'hydration_liters': 2.5}")%string.

Definition health_record (calories : string) : ConsumerRecord :=
  {| offset := 0; value := VStr (health_body calories) |}.

(** The body of a price message with the given texts for symbol and price. *)
Definition price_body (symbol price : string) : string :=
  body ("{'timestamp': '2025-01-25T10:00:00', 'symbol': " ++ symbol
        ++ ", 'price': " ++ price ++ "}")%string.

(** ** What one message does to the store *)

(** A value that is a number: a [bool], an [int] or a [float]. *)
Definition is_number (v : pyval) : bool :=
  match as_num v with Some _ => true | None => false end.

(** The rolling window after the stall consumer took a message: the metric
    of a complete reading is appended, any other message leaves it. *)
Definition window_after (json_loads : string -> result pyval)
    (message : string) (rolling_window : deque) : deque :=
  match json_loads message with
  | Ok (PDict d) =>
      if incomplete d then rolling_window
      else deque_append (default PNone (assoc_get "calories_burned" d))
             rolling_window
  | _ => rolling_window
  end.

(** The price table after the aggregation consumer took a message: the
    price of an object with a hashable symbol is appended to the series of
    that symbol, any other message leaves the table. *)
Definition table_after (json_loads : string -> result pyval)
    (message : string) (table : gmap pykey (list pyval))
  : gmap pykey (list pyval) :=
  match json_loads message with
  | Ok (PDict d) =>
      match py_key (payload_symbol d) with
      | Ok k => <[k := series k table ++ [payload_price d]]> table
      | Raise _ => table
      end
  | _ => table
  end.

(** A record whose value is text, or bytes that are UTF-8. *)
Definition decodable (message : ConsumerRecord) : bool :=
  match csv_consumer_prince.message_str_of message with
  | Ok _ => true
  | Raise _ => false
  end.

(** The records whose values are the given texts. *)
Definition text_records (texts : list (Z * string)) : list ConsumerRecord :=
  map (fun r => {| offset := fst r; value := VStr (snd r) |}) texts.

(** The greatest and the smallest of a non-empty list of integers. *)
Definition greatest (h : Z) (t : list Z) : Z := fold_left Z.max t h.
Definition smallest (h : Z) (t : list Z) : Z := fold_left Z.min t h.

(** The number a finite [float] stands for, as a rational: the mantissa
    with its sign, times a power of two. *)
Definition float_value (t : float) : option QArith_base.Q :=
  match Prim2SF t with
  | S754_zero _ => Some (QArith_base.inject_Z 0)
  | S754_finite s m e =>
      Some (QArith_base.Qmult
              (QArith_base.inject_Z (if s then Z.neg m else Z.pos m))
              (QArith_base.Qpower (QArith_base.inject_Z 2) e))
  | _ => None
  end.

(** [z <= t] between an integer and a float, as numbers: decided in the
    rationals when [t] is finite; every integer is below [inf], none is
    below [-inf], and nothing is below a NaN. *)
Definition int_le_float (z : Z) (t : float) : bool :=
  match float_value t with
  | Some q => QArith_base.Qle_bool (QArith_base.inject_Z z) q
  | None => PrimFloat.ltb 0 t
  end.

(** * Properties *)

(** ** Laws of the monad *)

Section Laws.
Context {S L : Type}.
Implicit Types (s : S) (l : list L).

Lemma prepend_nil {A} (x : result A * S * list L) : prepend [] x = x.
Proof. destruct x as [[r s] l]. reflexivity. Qed.

Lemma prepend_prepend {A} l1 l2 (x : result A * S * list L) :
  prepend l1 (prepend l2 x) = prepend (l1 ++ l2) x.
Proof. destruct x as [[r s] l]. simpl. now rewrite app_assoc. Qed.

Lemma outcome_prepend {A} l (x : result A * S * list L) :
  outcome (prepend l x) = outcome x.
Proof. destruct x as [[r s] l']. reflexivity. Qed.

Lemma store_prepend {A} l (x : result A * S * list L) :
  store (prepend l x) = store x.
Proof. destruct x as [[r s] l']. reflexivity. Qed.

Lemma logged_prepend {A} l (x : result A * S * list L) :
  logged (prepend l x) = l ++ logged x.
Proof. destruct x as [[r s] l']. reflexivity. Qed.

Lemma bind_ret {A B} (a : A) (k : A -> M S L B) s : bind (ret a) k s = k a s.
Proof. unfold bind, ret. apply prepend_nil. Qed.

Lemma bind_emit {B} (r : L) (k : unit -> M S L B) s :
  bind (emit r) k s = prepend [r] (k tt s).
Proof. reflexivity. Qed.

Lemma bind_lift_Ok {A B} (a : A) (k : A -> M S L B) s :
  bind (lift (Ok a)) k s = k a s.
Proof. unfold bind, lift. apply prepend_nil. Qed.

Lemma bind_lift_Raise {A B} (e : exn) (k : A -> M S L B) s :
  bind (lift (Raise e)) k s = (Raise e, s, []).
Proof. reflexivity. Qed.

Lemma bind_get {B} (k : S -> M S L B) s : bind get k s = k s s.
Proof. unfold bind, get. apply prepend_nil. Qed.

Lemma bind_put {B} (s' : S) (k : unit -> M S L B) s : bind (put s') k s = k tt s'.
Proof. unfold bind, put. apply prepend_nil. Qed.

Lemma bind_assoc {A B C} (m : M S L A) (k : A -> M S L B) (h : B -> M S L C) s :
  bind (bind m k) h s = bind m (fun a => bind (k a) h) s.
Proof.
  unfold bind. destruct (m s) as [[[a | e] s1] l1]; [| reflexivity].
  destruct (k a s1) as [[[b | e] s2] l2]; simpl; [| reflexivity].
  now rewrite prepend_prepend.
Qed.

Lemma outcome_bind {A B} (m : M S L A) (k : A -> M S L B) s :
  outcome (bind m k s)
  = match outcome (m s) with
    | Ok a => outcome (k a (store (m s)))
    | Raise e => Raise e
    end.
Proof.
  unfold bind. destruct (m s) as [[[a | e] s1] l1]; [| reflexivity].
  apply outcome_prepend.
Qed.

Lemma store_bind {A B} (m : M S L A) (k : A -> M S L B) s :
  store (bind m k s)
  = match outcome (m s) with
    | Ok a => store (k a (store (m s)))
    | Raise _ => store (m s)
    end.
Proof.
  unfold bind. destruct (m s) as [[[a | e] s1] l1]; [| reflexivity].
  apply store_prepend.
Qed.

Lemma outcome_try_except (m : M S L unit) (h : exn -> M S L unit) s :
  (forall e s', outcome (h e s') = Ok tt) ->
  outcome (try_except m h s) = Ok tt.
Proof.
  intros Hh. unfold try_except.
  destruct (m s) as [[[[] | e] s1] l1]; [reflexivity |].
  rewrite outcome_prepend. apply Hh.
Qed.

Lemma store_try_except {A} (m : M S L A) (h : exn -> M S L A) s :
  (forall e s', store (h e s') = s') ->
  store (try_except m h s) = store (m s).
Proof.
  intros Hh. unfold try_except.
  destruct (m s) as [[[a | e] s1] l1]; [reflexivity |].
  rewrite store_prepend. apply Hh.
Qed.
End Laws.

(** ** Order of binary64 values *)

Lemma SFcompare_antisym (a b : spec_float) :
  SFcompare a b = option_map CompOpp (SFcompare b a).
Proof.
  destruct a as [sa | sa | | sa ma ea], b as [sb | sb | | sb mb eb];
    try destruct sa; try destruct sb; try reflexivity; simpl;
    rewrite (Z.compare_antisym ea eb);
    destruct (ea ?= eb); simpl; try reflexivity;
    rewrite (Pos.compare_cont_antisym mb ma Eq); simpl;
    destruct (Pos.compare_cont Eq ma mb); reflexivity.
Qed.

Lemma float_leb_not_ltb (x y : float) :
  PrimFloat.leb x y = true -> PrimFloat.ltb y x = false.
Proof.
  rewrite FloatAxioms.leb_spec, FloatAxioms.ltb_spec. unfold SFleb, SFltb.
  rewrite (SFcompare_antisym (Prim2SF y) (Prim2SF x)).
  destruct (SFcompare (Prim2SF x) (Prim2SF y)) as [[]|]; simpl; congruence.
Qed.

Lemma float_eqb_leb (x y : float) :
  PrimFloat.eqb x y = true -> PrimFloat.leb x y = true.
Proof.
  rewrite FloatAxioms.eqb_spec, FloatAxioms.leb_spec. unfold SFeqb, SFleb.
  destruct (SFcompare (Prim2SF x) (Prim2SF y)) as [[]|]; simpl; congruence.
Qed.
Lemma SFleb_trans (a b c : spec_float) :
  SFleb a b = true -> SFleb b c = true -> SFleb a c = true.
Proof.
  unfold SFleb.
  destruct a as [sa | sa | | sa ma ea], b as [sb | sb | | sb mb eb],
    c as [sc | sc | | sc mc ec];
    try destruct sa; try destruct sb; try destruct sc; simpl;
    try congruence;
    change (Pos.compare_cont Eq) with Pos.compare;
    destruct (Z.compare_spec ea eb); simpl; try congruence;
    destruct (Z.compare_spec eb ec); simpl; try congruence;
    destruct (Z.compare_spec ea ec); simpl; try congruence; try lia;
    destruct (Pos.compare_spec ma mb); simpl; try congruence;
    destruct (Pos.compare_spec mb mc); simpl; try congruence;
    destruct (Pos.compare_spec ma mc); simpl; try congruence; lia.
Qed.
Lemma float_leb_trans (x y z : float) :
  PrimFloat.leb x y = true -> PrimFloat.leb y z = true -> PrimFloat.leb x z = true.
Proof. rewrite !FloatAxioms.leb_spec. apply SFleb_trans. Qed.

Lemma float_leb_ltb (x y : float) :
  PrimFloat.leb x y = true -> PrimFloat.leb y x = false -> PrimFloat.ltb x y = true.
Proof.
  rewrite !FloatAxioms.leb_spec, FloatAxioms.ltb_spec. unfold SFleb, SFltb.
  rewrite (SFcompare_antisym (Prim2SF y) (Prim2SF x)).
  destruct (SFcompare (Prim2SF x) (Prim2SF y)) as [[]|]; simpl; congruence.
Qed.

(** ** Integers against floats

    The comparison of an [int] with a [float], which scales one side by a
    power of two, decides the order of the two numbers in the rationals. *)

Section Rational.
Import QArith_base Qpower.
Local Open Scope Z_scope.

Lemma Qle_bool_scaled (z v e : Z) :
  Qle_bool (inject_Z z) (Qmult (inject_Z v) (Qpower (inject_Z 2) e))
  = if 0 <=? e then z <=? v * 2 ^ e else z * 2 ^ (- e) <=? v.
Proof.
  apply eq_true_iff_eq. rewrite Qle_bool_iff.
  destruct (Z.leb_spec 0 e) as [He | He]; rewrite Z.leb_le.
  - rewrite Zle_Qle, inject_Z_mult, (Zpower_Qpower 2 e He). reflexivity.
  - assert (Hp : Qlt (inject_Z 0) (inject_Z (2 ^ (- e)))).
    { rewrite <- Zlt_Qlt. apply Z.pow_pos_nonneg; lia. }
    rewrite Zle_Qle, inject_Z_mult, <- (Qmult_le_r _ _ _ Hp).
    replace (Qpower (inject_Z 2) e) with (Qpower (inject_Z 2) (- - e))
      by (f_equal; lia).
    rewrite Qpower_opp, <- (Zpower_Qpower 2 (- e)) by lia.
    rewrite <- Qmult_assoc, (Qmult_comm (Qinv _)).
    rewrite Qmult_inv_r, Qmult_1_r; [reflexivity |].
    intros H. rewrite H in Hp. now apply Qlt_irrefl in Hp.
Qed.
End Rational.

Lemma int_le_float_exact (z : Z) (t : float) :
  cmp_holds Py_LE (option_map CompOpp (float_compare_Z t z)) = int_le_float z t.
Proof.
  unfold int_le_float, float_value, float_compare_Z.
  rewrite FloatAxioms.ltb_spec.
  change (Prim2SF 0) with (S754_zero false).
  destruct (Prim2SF t) as [s | s | | s m e]; cbn [option_map].
  - unfold QArith_base.Qle_bool. cbn. rewrite Z.mul_1_r.
    destruct (Z.leb_spec z 0), z; simpl; try reflexivity; lia.
  - now destruct s.
  - reflexivity.
  - rewrite Qle_bool_scaled.
    destruct (0 <=? e); cbn [option_map cmp_holds]; rewrite <- Z.compare_antisym.
    + destruct (Z.leb_spec z ((if s then Z.neg m else Z.pos m) * 2 ^ e));
        destruct (Z.compare_spec z ((if s then Z.neg m else Z.pos m) * 2 ^ e));
        try reflexivity; lia.
    + destruct (Z.leb_spec (z * 2 ^ (- e)) (if s then Z.neg m else Z.pos m));
        destruct (Z.compare_spec (z * 2 ^ (- e)) (if s then Z.neg m else Z.pos m));
        try reflexivity; lia.
Qed.

(** ** The first extremal item

    A scan that keeps its candidate unless the next item is better returns
    the first item that bounds all the others. *)

Section Extremum.
Context {A : Type} (le better : A -> A -> bool).
Hypothesis le_trans : forall a b c, le a b = true -> le b c = true -> le a c = true.
Hypothesis le_better : forall x m, le x m = true -> le m x = false -> better m x = true.
Hypothesis le_keeps : forall x m, le x m = true -> better x m = false.

Lemma find_split (p : A -> bool) (l : list A) (m : A) :
  find p l = Some m ->
  exists pre post, l = pre ++ m :: post /\ p m = true /\ Forall (fun x => p x = false) pre.
Proof.
  induction l as [| x l IH]; simpl; [discriminate |].
  destruct (p x) eqn:Hx.
  - intros [= ->]. exists [], l. auto.
  - intros H. destruct (IH H) as (pre & post & -> & Hm & Hpre).
    exists (x :: pre), post. auto.
Qed.

Lemma scan_In (b : A) (l : list A) : In (scan better b l) (b :: l).
Proof.
  revert b. induction l as [| x l IH]; intros b; simpl; [auto |].
  destruct (IH (if better x b then x else b)) as [H | H]; [| auto].
  destruct (better x b); rewrite <- H; auto.
Qed.

Lemma scan_keeps (m : A) (l : list A) :
  Forall (fun x => le x m = true) l -> scan better m l = m.
Proof using le_keeps.
  induction 1 as [| x l Hx _ IH]; simpl; [reflexivity |].
  now rewrite (le_keeps _ _ Hx).
Qed.

Lemma scan_first_bound (vs : list A) (m : A) :
  first_bound le vs = Some m ->
  exists h t, vs = h :: t /\ scan better h t = m.
Proof using All.
  unfold first_bound. intros H.
  destruct (find_split _ _ _ H) as (pre & post & E & Hm & Hpre).
  rewrite forallb_forall in Hm.
  assert (Hlt : Forall (fun x => better m x = true) pre).
  { rewrite List.Forall_forall in *. intros x Hx.
    apply le_better.
    - apply Hm. rewrite E. apply in_or_app. auto.
    - destruct (le m x) eqn:Hmx; [| reflexivity].
      specialize (Hpre x Hx). simpl in Hpre.
      rewrite <- Hpre. symmetry. apply forallb_forall.
      intros y Hy. eapply le_trans; [apply Hm, Hy | exact Hmx]. }
  assert (Hpost : Forall (fun x => le x m = true) post).
  { apply List.Forall_forall. intros x Hx. apply Hm. rewrite E.
    apply in_or_app. right. now right. }
  destruct pre as [| h pre].
  - exists m, post. split; [exact E |]. now apply scan_keeps.
  - exists h, (pre ++ m :: post). split; [exact E |].
    unfold scan. rewrite fold_left_app. simpl.
    fold (scan better h pre).
    assert (Hb : better m (scan better h pre) = true).
    { rewrite List.Forall_forall in Hlt. apply Hlt. apply scan_In. }
    rewrite Hb. now apply scan_keeps.
Qed.
End Extremum.

(** ** The rolling window *)

Lemma deque_new_fits (n : Z) :
  0 <= n < 2 ^ 63 -> deque_new n = Ok {| items := []; maxlen := n |}.
Proof.
  intros H. unfold deque_new, PY_SSIZE_T_MIN, PY_SSIZE_T_MAX.
  destruct (Z.ltb_spec n (- (2 ^ 63 - 1) - 1)); [lia |].
  destruct (Z.ltb_spec (2 ^ 63 - 1) n); [lia |].
  destruct (Z.ltb_spec n 0); [lia | reflexivity].
Qed.

Lemma deque_new_negative (n : Z) :
  - 2 ^ 63 <= n < 0 -> deque_new n = Raise ValueError.
Proof.
  intros H. unfold deque_new, PY_SSIZE_T_MIN, PY_SSIZE_T_MAX.
  destruct (Z.ltb_spec n (- (2 ^ 63 - 1) - 1)); [lia |].
  destruct (Z.ltb_spec (2 ^ 63 - 1) n); [lia |].
  destruct (Z.ltb_spec n 0); [reflexivity | lia].
Qed.

Lemma lastn_lastn_app {A} (n : nat) (a b : list A) :
  lastn n (lastn n a ++ b) = lastn n (a ++ b).
Proof.
  unfold lastn.
  rewrite <- (drop_app_le a b (length a - n)) by lia.
  rewrite drop_drop. f_equal.
  rewrite length_drop, !length_app. lia.
Qed.

Lemma deque_append_items (x : pyval) (d : deque) :
  (length (items d) <= Z.to_nat (maxlen d))%nat -> 0 <= maxlen d ->
  items (deque_append x d) = lastn (Z.to_nat (maxlen d)) (items d ++ [x]).
Proof.
  intros Hlen Hw. unfold deque_append, lastn. simpl.
  rewrite length_app. simpl.
  destruct (Z.ltb_spec (maxlen d) (Z.of_nat (length (items d) + 1))) as [H | H].
  - replace (length (items d) + 1 - Z.to_nat (maxlen d))%nat with 1%nat by lia.
    destruct (items d ++ [x]); reflexivity.
  - replace (length (items d) + 1 - Z.to_nat (maxlen d))%nat with 0%nat by lia.
    reflexivity.
Qed.

Lemma deque_append_maxlen (x : pyval) (d : deque) :
  maxlen (deque_append x d) = maxlen d.
Proof. reflexivity. Qed.

Lemma lastn_length {A} (n : nat) (l : list A) : (length (lastn n l) <= n)%nat.
Proof. unfold lastn. rewrite length_drop. lia. Qed.

Lemma fold_append_items (vs : list pyval) (d : deque) :
  (length (items d) <= Z.to_nat (maxlen d))%nat -> 0 <= maxlen d ->
  let d' := fold_left (fun d v => deque_append v d) vs d in
  items d' = lastn (Z.to_nat (maxlen d)) (items d ++ vs) /\ maxlen d' = maxlen d.
Proof.
  revert d. induction vs as [| v vs IH]; intros d Hlen Hw; simpl.
  - split; [| reflexivity]. rewrite app_nil_r. unfold lastn.
    replace (length (items d) - Z.to_nat (maxlen d))%nat with 0%nat by lia.
    reflexivity.
  - pose proof (deque_append_items v d Hlen Hw) as Hi.
    destruct (IH (deque_append v d)) as [Ha Hb].
    + rewrite Hi. apply lastn_length.
    + exact Hw.
    + rewrite deque_append_maxlen in Ha, Hb. split; [| exact Hb].
      rewrite Ha, Hi, lastn_lastn_app, <- app_assoc. reflexivity.
Qed.

Lemma pushed_items (w : Z) (vs : list pyval) :
  0 <= w -> items (pushed w vs) = lastn (Z.to_nat w) vs /\ maxlen (pushed w vs) = w.
Proof.
  intros Hw. unfold pushed.
  apply (fold_append_items vs {| items := []; maxlen := w |}); simpl; lia.
Qed.

(** ** The stall detector *)

Lemma extremum_loop_floats (op : cmpop) (best : float) (rest : list float) :
  extremum_loop op (PFloat best) (map PFloat rest)
  = Ok (PFloat (scan (float_richcompare op) best rest)).
Proof.
  revert best. induction rest as [| x rest IH]; intros best; simpl; [reflexivity |].
  destruct (float_richcompare op x best); apply IH.
Qed.

Lemma py_max_floats (vs : list float) (m : float) :
  window_max vs = Some m -> py_max (map PFloat vs) = Ok (PFloat m).
Proof.
  intros H.
  destruct (scan_first_bound (fun x m => PrimFloat.leb x m)
              (float_richcompare Py_GT)
              float_leb_trans float_leb_ltb float_leb_not_ltb vs m H)
    as (h & t & -> & <-).
  apply extremum_loop_floats.
Qed.

Lemma py_min_floats (vs : list float) (n : float) :
  window_min vs = Some n -> py_min (map PFloat vs) = Ok (PFloat n).
Proof.
  intros H.
  destruct (scan_first_bound (fun x n => PrimFloat.leb n x)
              (float_richcompare Py_LT)
              (fun a b c Hab Hbc => float_leb_trans c b a Hbc Hab)
              (fun x m Hxm Hmx => float_leb_ltb m x Hxm Hmx)
              (fun x m Hxm => float_leb_not_ltb m x Hxm) vs n H)
    as (h & t & -> & <-).
  apply extremum_loop_floats.
Qed.

Lemma bind_get_rolling_window_size (e : csv_consumer_prince.environ) {S B}
    (w : Z) (k : Z -> M S csv_consumer_prince.log_record B) (s : S) :
  configured_window_size e = Ok w ->
  bind (csv_consumer_prince.get_rolling_window_size e) k s
  = prepend [(INFO, csv_consumer_prince.Rolling_window_size w)] (k w s).
Proof.
  unfold configured_window_size, csv_consumer_prince.get_rolling_window_size.
  intros ->. now rewrite bind_assoc, bind_lift_Ok, bind_assoc, bind_emit, bind_ret.
Qed.

Lemma bind_get_stall_threshold (e : csv_consumer_prince.environ) {S B}
    (t : float) (k : float -> M S csv_consumer_prince.log_record B) (s : S) :
  configured_threshold e = Ok t ->
  bind (csv_consumer_prince.get_stall_threshold e) k s
  = prepend [(INFO, csv_consumer_prince.Max_stall_range t)] (k t s).
Proof.
  unfold configured_threshold, csv_consumer_prince.get_stall_threshold.
  intros ->. now rewrite bind_assoc, bind_lift_Ok, bind_assoc, bind_emit, bind_ret.
Qed.

Lemma detect_stall_full_window (e : csv_consumer_prince.environ) {S}
    (s : S) (d : deque) (w : Z) (t : float) (vs : list float) (m n : float) :
  configured_window_size e = Ok w ->
  configured_threshold e = Ok t ->
  items d = map PFloat vs ->
  Z.of_nat (length vs) = w ->
  window_max vs = Some m ->
  window_min vs = Some n ->
  csv_consumer_prince.detect_stall e d s
  = (Ok (m - n <=? t)%float, s,
     [(INFO, csv_consumer_prince.Rolling_window_size w);
      (INFO, csv_consumer_prince.Max_stall_range t);
      (DEBUG, csv_consumer_prince.Range_stalled (PFloat (m - n)) (m - n <=? t)%float)]).
Proof.
  intros Hw Ht Hd Hlen Hmax Hmin.
  unfold csv_consumer_prince.detect_stall.
  rewrite (bind_get_rolling_window_size e w _ s Hw).
  unfold deque_len.
  rewrite Hd, length_map, Hlen, Z.ltb_irrefl.
  rewrite (py_max_floats vs m Hmax), bind_lift_Ok.
  rewrite (py_min_floats vs n Hmin), bind_lift_Ok.
  change (py_sub (PFloat m) (PFloat n)) with (Ok (PFloat (m - n)%float)).
  rewrite bind_lift_Ok, (bind_get_stall_threshold e t _ s Ht).
  reflexivity.
Qed.

Lemma detect_stall_short_window (e : csv_consumer_prince.environ) {S}
    (s : S) (d : deque) (w : Z) :
  configured_window_size e = Ok w ->
  deque_len d < w ->
  csv_consumer_prince.detect_stall e d s
  = (Ok false, s,
     [(INFO, csv_consumer_prince.Rolling_window_size w);
      (DEBUG, csv_consumer_prince.Waiting_for (deque_len d) w)]).
Proof.
  intros Hw Hlen.
  unfold csv_consumer_prince.detect_stall.
  rewrite (bind_get_rolling_window_size e w _ s Hw).
  destruct (Z.ltb_spec (deque_len d) w); [reflexivity | lia].
Qed.

Lemma detect_stall_store (e : csv_consumer_prince.environ) {S} (d : deque) (s : S) :
  store (csv_consumer_prince.detect_stall e d s) = s.
Proof.
  unfold csv_consumer_prince.detect_stall,
    csv_consumer_prince.get_rolling_window_size,
    csv_consumer_prince.get_stall_threshold.
  rewrite bind_assoc.
  destruct (default (Ok 5) _) as [w |]; [| reflexivity].
  rewrite bind_lift_Ok, bind_assoc, bind_emit, store_prepend, bind_ret.
  destruct (deque_len d <? w); [reflexivity |].
  destruct (py_max (items d)) as [mx |]; [| reflexivity].
  rewrite bind_lift_Ok.
  destruct (py_min (items d)) as [mn |]; [| reflexivity].
  rewrite bind_lift_Ok.
  destruct (py_sub mx mn) as [r |]; [| reflexivity].
  rewrite bind_lift_Ok, bind_assoc.
  destruct (default (Ok 0.2%float) _) as [t |]; [| reflexivity].
  rewrite bind_lift_Ok, bind_assoc, bind_emit, store_prepend, bind_ret.
  destruct (py_richcompare Py_LE r (PFloat t)); [| reflexivity].
  rewrite bind_lift_Ok. destruct (py_format r); reflexivity.
Qed.

(** ** Processing one message: the stall consumer *)

Lemma None_in_incomplete (d : list (string * pyval)) :
  None_in (map (fun f => default PNone (assoc_get f d)) required_fields)
  = incomplete d.
Proof.
  unfold None_in, incomplete, missing_or_null. simpl.
  repeat match goal with
         | |- context [assoc_get ?f d] =>
             destruct (assoc_get f d) as [[]|]; simpl
         end; reflexivity.
Qed.

Lemma py_get_dict (d : list (string * pyval)) (key : string) (dflt : pyval) :
  py_get (PDict d) key dflt = Ok (default dflt (assoc_get key d)).
Proof. reflexivity. Qed.

Lemma py_get_not_dict (v : pyval) (key : string) (dflt : pyval) :
  is_dict v = false -> py_get v key dflt = Raise AttributeError.
Proof. now destruct v. Qed.

Section CsvMessage.
Variable json_loads : string -> result pyval.
Variable e : csv_consumer_prince.environ.

Lemma csv_handler_outcome message ex (s : deque) :
  outcome ((if exn_eqb ex JSONDecodeError
            then emit (ERROR, csv_consumer_prince.JSON_decoding_error message)
            else emit (ERROR, csv_consumer_prince.Error_processing_message message ex)) s)
  = Ok tt.
Proof. destruct (exn_eqb ex JSONDecodeError); reflexivity. Qed.

Lemma csv_handler_store message ex (s : deque) :
  store ((if exn_eqb ex JSONDecodeError
          then emit (ERROR, csv_consumer_prince.JSON_decoding_error message)
          else emit (ERROR, csv_consumer_prince.Error_processing_message message ex)) s)
  = s.
Proof. destruct (exn_eqb ex JSONDecodeError); reflexivity. Qed.

Lemma csv_process_never_raises message window_size rolling_window :
  outcome (csv_consumer_prince.process_message json_loads e message window_size
             rolling_window) = Ok tt.
Proof.
  unfold csv_consumer_prince.process_message.
  apply outcome_try_except. intros ex s'. apply csv_handler_outcome.
Qed.

Lemma csv_process_decode_error message window_size rolling_window :
  json_loads message = Raise JSONDecodeError ->
  csv_consumer_prince.process_message json_loads e message window_size rolling_window
  = (Ok tt, rolling_window,
     [(DEBUG, csv_consumer_prince.Raw_message message);
      (ERROR, csv_consumer_prince.JSON_decoding_error message)]).
Proof.
  intros H. unfold csv_consumer_prince.process_message, try_except.
  rewrite bind_emit, H, bind_lift_Raise. reflexivity.
Qed.

Lemma csv_process_not_dict message window_size rolling_window v :
  json_loads message = Ok v ->
  is_dict v = false ->
  csv_consumer_prince.process_message json_loads e message window_size rolling_window
  = (Ok tt, rolling_window,
     [(DEBUG, csv_consumer_prince.Raw_message message);
      (ERROR, csv_consumer_prince.Error_processing_message message AttributeError)]).
Proof.
  intros H Hv. unfold csv_consumer_prince.process_message, try_except.
  rewrite bind_emit, H, bind_lift_Ok, (py_get_not_dict v _ _ Hv), bind_lift_Raise.
  reflexivity.
Qed.

Lemma csv_process_incomplete message window_size rolling_window d :
  json_loads message = Ok (PDict d) ->
  incomplete d = true ->
  csv_consumer_prince.process_message json_loads e message window_size rolling_window
  = (Ok tt, rolling_window,
     [(DEBUG, csv_consumer_prince.Raw_message message);
      (INFO, csv_consumer_prince.Processed_JSON_message (PDict d));
      (ERROR, csv_consumer_prince.Invalid_message_format message)]).
Proof.
  intros H Hinc. rewrite <- None_in_incomplete in Hinc.
  unfold csv_consumer_prince.process_message, try_except.
  rewrite bind_emit, H, bind_lift_Ok.
  rewrite !py_get_dict, !bind_lift_Ok, bind_emit.
  unfold required_fields in Hinc. cbn [map] in Hinc. rewrite Hinc.
  reflexivity.
Qed.

(** The body of [process_message] once the payload is an object. *)
Lemma csv_process_dict_store message window_size rolling_window d :
  json_loads message = Ok (PDict d) ->
  store (csv_consumer_prince.process_message json_loads e message window_size
           rolling_window)
  = if incomplete d then rolling_window
    else deque_append (default PNone (assoc_get "calories_burned" d)) rolling_window.
Proof.
  intros H. rewrite <- None_in_incomplete.
  unfold csv_consumer_prince.process_message.
  rewrite store_try_except by (intros; apply csv_handler_store).
  rewrite bind_emit, store_prepend, H, bind_lift_Ok.
  rewrite !py_get_dict, !bind_lift_Ok, bind_emit, store_prepend.
  unfold required_fields. cbn [map].
  match goal with |- context [None_in ?l] => destruct (None_in l) end;
    [reflexivity |].
  rewrite bind_get, bind_put, bind_get, store_bind, detect_stall_store.
  destruct (outcome _) as [[] |]; reflexivity.
Qed.

Lemma csv_process_complete message window_size rolling_window d v :
  json_loads message = Ok (PDict d) ->
  incomplete d = false ->
  assoc_get "calories_burned" d = Some v ->
  store (csv_consumer_prince.process_message json_loads e message window_size
           rolling_window)
  = deque_append v rolling_window.
Proof.
  intros H Hinc Hv.
  rewrite (csv_process_dict_store _ _ _ d H), Hinc, Hv. reflexivity.
Qed.

Lemma csv_process_store message window_size rolling_window :
  let after := store (csv_consumer_prince.process_message json_loads e message
                        window_size rolling_window) in
  after = rolling_window \/ exists v, after = deque_append v rolling_window.
Proof.
  simpl.
  destruct (json_loads message) as [v | ex] eqn:H.
  - destruct v;
      try (left;
           rewrite (csv_process_not_dict _ _ _ _ H) by reflexivity;
           reflexivity).
    rewrite (csv_process_dict_store _ _ _ d H).
    destruct (incomplete d); eauto.
  - left. unfold csv_consumer_prince.process_message.
    rewrite store_try_except by (intros; apply csv_handler_store).
    rewrite bind_emit, store_prepend, H, bind_lift_Raise. reflexivity.
Qed.
End CsvMessage.

(** ** The loop of the stall consumer *)

Section CsvLoop.
Variable json_loads : string -> result pyval.
Variable e : csv_consumer_prince.environ.

Lemma csv_poll_cons message rest window_size rolling_window message_str :
  csv_consumer_prince.message_str_of message = Ok message_str ->
  let run := csv_consumer_prince.process_message json_loads e message_str
               window_size rolling_window in
  csv_consumer_prince.poll json_loads e (message :: rest) window_size rolling_window
  = prepend ((DEBUG, csv_consumer_prince.Received_message (offset message) message_str)
             :: logged run)
      (csv_consumer_prince.poll json_loads e rest window_size (store run)).
Proof.
  intros Hm run. cbn [csv_consumer_prince.poll].
  rewrite Hm, bind_lift_Ok, bind_emit. unfold bind at 1.
  pose proof (csv_process_never_raises json_loads e message_str window_size
                rolling_window) as Hr.
  fold run in Hr |- *. destruct run as [[r s1] l1].
  unfold outcome in Hr. simpl in Hr. subst r.
  now rewrite prepend_prepend.
Qed.

Lemma csv_poll_undecodable message rest window_size rolling_window ex :
  csv_consumer_prince.message_str_of message = Raise ex ->
  csv_consumer_prince.poll json_loads e (message :: rest) window_size rolling_window
  = (Raise ex, rolling_window, []).
Proof.
  intros Hm. cbn [csv_consumer_prince.poll]. now rewrite Hm, bind_lift_Raise.
Qed.

Lemma csv_poll_readings consumer vs window_size rolling_window :
  map (reading_of json_loads) consumer = map Some vs ->
  store (csv_consumer_prince.poll json_loads e consumer window_size rolling_window)
  = fold_left (fun d v => deque_append v d) vs rolling_window.
Proof.
  revert vs rolling_window.
  induction consumer as [| message consumer IH]; intros [| v vs] rolling_window;
    try discriminate; [reflexivity |].
  cbn [map]. intros [= Hr Hrest]. unfold reading_of in Hr.
  destruct (csv_consumer_prince.message_str_of message) as [message_str |] eqn:Hm;
    [| discriminate].
  destruct (json_loads message_str) as [[| | | | | | d] |] eqn:Hl; try discriminate.
  destruct (incomplete d) eqn:Hc; [discriminate |].
  rewrite (csv_poll_cons _ _ _ _ _ Hm), store_prepend.
  rewrite (csv_process_complete json_loads e _ _ _ d v Hl Hc Hr).
  cbn [fold_left]. now apply IH.
Qed.

Lemma deque_append_bounded (x : pyval) (d : deque) :
  0 <= maxlen d -> deque_len d <= maxlen d ->
  deque_len (deque_append x d) <= maxlen d.
Proof.
  intros Hw Hlen. unfold deque_len in *.
  rewrite deque_append_items by lia.
  pose proof (lastn_length (Z.to_nat (maxlen d)) (items d ++ [x])). lia.
Qed.

Lemma csv_poll_bounded consumer window_size rolling_window :
  0 <= maxlen rolling_window ->
  deque_len rolling_window <= maxlen rolling_window ->
  let after := store (csv_consumer_prince.poll json_loads e consumer window_size
                        rolling_window) in
  maxlen after = maxlen rolling_window /\ deque_len after <= maxlen rolling_window.
Proof.
  revert rolling_window.
  induction consumer as [| message rest IH]; intros rolling_window Hw Hlen;
    [simpl; auto |].
  cbv zeta in *.
  destruct (csv_consumer_prince.message_str_of message) as [message_str | ex] eqn:Hm.
  - rewrite (csv_poll_cons _ _ _ _ _ Hm), store_prepend.
    destruct (csv_process_store json_loads e message_str window_size rolling_window)
      as [-> | [v ->]].
    + now apply IH.
    + pose proof (deque_append_bounded v rolling_window Hw Hlen).
      destruct (IH (deque_append v rolling_window)) as [Ha Hb]; auto.
  - rewrite (csv_poll_undecodable _ _ _ _ _ Hm). auto.
Qed.

Lemma csv_main_window consumer w :
  configured_window_size e = Ok w -> 0 <= w < 2 ^ 63 ->
  exists log,
    csv_consumer_prince.main json_loads e consumer
    = (Ok (store (csv_consumer_prince.poll json_loads e consumer w
                    {| items := []; maxlen := w |})), log).
Proof.
  intros Hw Hpos. unfold csv_consumer_prince.main,
    csv_consumer_prince.get_kafka_topic,
    csv_consumer_prince.get_kafka_consumer_group_id.
  rewrite bind_emit, bind_assoc, bind_emit, bind_ret, bind_assoc, bind_emit, bind_ret.
  rewrite (bind_get_rolling_window_size e w _ tt Hw), !bind_emit.
  rewrite (deque_new_fits w Hpos).
  rewrite bind_lift_Ok. cbn [prepend ret app].
  unfold try_except. rewrite bind_emit.
  destruct (csv_consumer_prince.poll json_loads e consumer w _) as [[[[] | ex] s] l];
    simpl; eauto.
Qed.
End CsvLoop.

(** ** Processing one message: the aggregation consumer *)

Section JsonMessage.
Variable json_loads : string -> result pyval.

Lemma json_handler_outcome message ex (s : gmap pykey (list pyval)) :
  outcome ((if exn_eqb ex JSONDecodeError
            then emit (ERROR, json_consumer_prince.Invalid_JSON_message message)
            else emit (ERROR, json_consumer_prince.Error_processing_message ex)) s)
  = Ok tt.
Proof. destruct (exn_eqb ex JSONDecodeError); reflexivity. Qed.

Lemma json_handler_store message ex (s : gmap pykey (list pyval)) :
  store ((if exn_eqb ex JSONDecodeError
          then emit (ERROR, json_consumer_prince.Invalid_JSON_message message)
          else emit (ERROR, json_consumer_prince.Error_processing_message ex)) s)
  = s.
Proof. destruct (exn_eqb ex JSONDecodeError); reflexivity. Qed.

Lemma json_process_never_raises message (table : gmap pykey (list pyval)) :
  outcome (json_consumer_prince.process_message json_loads message table) = Ok tt.
Proof.
  unfold json_consumer_prince.process_message.
  apply outcome_try_except. intros ex s'. apply json_handler_outcome.
Qed.

Lemma json_process_decode_error message (table : gmap pykey (list pyval)) :
  json_loads message = Raise JSONDecodeError ->
  json_consumer_prince.process_message json_loads message table
  = (Ok tt, table,
     [(DEBUG, json_consumer_prince.Raw_message message);
      (ERROR, json_consumer_prince.Invalid_JSON_message message)]).
Proof.
  intros H. unfold json_consumer_prince.process_message, try_except.
  rewrite bind_emit, H, bind_lift_Raise. reflexivity.
Qed.

Lemma json_process_raises message (table : gmap pykey (list pyval)) ex :
  json_loads message = Raise ex ->
  store (json_consumer_prince.process_message json_loads message table) = table.
Proof.
  intros H. unfold json_consumer_prince.process_message.
  rewrite store_try_except by (intros; apply json_handler_store).
  rewrite bind_emit, store_prepend, H, bind_lift_Raise. reflexivity.
Qed.

Lemma json_process_not_dict message (table : gmap pykey (list pyval)) v :
  json_loads message = Ok v ->
  is_dict v = false ->
  json_consumer_prince.process_message json_loads message table
  = (Ok tt, table,
     [(DEBUG, json_consumer_prince.Raw_message message);
      (INFO, json_consumer_prince.Processed_JSON_message v);
      (ERROR, json_consumer_prince.Expected_a_dictionary v)]).
Proof.
  intros H Hv. unfold json_consumer_prince.process_message, try_except.
  rewrite bind_emit, H, bind_lift_Ok, bind_emit, Hv. reflexivity.
Qed.

Lemma json_process_unhashable message (table : gmap pykey (list pyval)) d ex :
  json_loads message = Ok (PDict d) ->
  py_key (payload_symbol d) = Raise ex ->
  store (json_consumer_prince.process_message json_loads message table) = table.
Proof.
  intros H Hk. unfold json_consumer_prince.process_message.
  rewrite store_try_except by (intros; apply json_handler_store).
  rewrite bind_emit, store_prepend, H, bind_lift_Ok, bind_emit, store_prepend.
  cbn [is_dict].
  rewrite !py_get_dict, !bind_lift_Ok, bind_emit, store_prepend.
  unfold json_consumer_prince.getitem at 1.
  fold (payload_symbol d). rewrite bind_assoc, Hk, bind_lift_Raise. reflexivity.
Qed.

Lemma json_process_dict message (table : gmap pykey (list pyval)) d k :
  json_loads message = Ok (PDict d) ->
  py_key (payload_symbol d) = Ok k ->
  json_consumer_prince.process_message json_loads message table
  = (Ok tt, <[k := series k table ++ [payload_price d]]> table,
     [(DEBUG, json_consumer_prince.Raw_message message);
      (INFO, json_consumer_prince.Processed_JSON_message (PDict d));
      (INFO, json_consumer_prince.Message_received (payload_symbol d)
               (payload_price d)
               (default (PStr "unknown_time") (assoc_get "timestamp" d)));
      (INFO, json_consumer_prince.Updated_prices (payload_symbol d)
               (series k table ++ [payload_price d]))]).
Proof.
  intros H Hk. unfold json_consumer_prince.process_message, try_except.
  rewrite bind_emit, H, bind_lift_Ok, bind_emit.
  cbn [is_dict].
  rewrite !py_get_dict, !bind_lift_Ok, bind_emit.
  fold (payload_symbol d) (payload_price d).
  unfold json_consumer_prince.getitem, json_consumer_prince.list_append.
  rewrite bind_assoc, Hk, bind_lift_Ok, bind_assoc, bind_get.
  unfold series.
  destruct (table !! k) as [prices |] eqn:Hlook;
    repeat (progress rewrite ?bind_assoc, ?bind_ret, ?bind_get, ?bind_put,
              ?bind_lift_Ok, ?lookup_insert_eq, ?insert_insert_eq, ?Hlook);
    reflexivity.
Qed.

(** What one message does to the series of each key. *)
Lemma json_process_series message (table : gmap pykey (list pyval)) k :
  series k (store (json_consumer_prince.process_message json_loads message table))
  = series k table ++ appended json_loads k message.
Proof.
  unfold appended.
  destruct (json_loads message) as [v | ex] eqn:H.
  - destruct v;
      try (rewrite (json_process_not_dict _ _ _ H) by reflexivity;
           now rewrite app_nil_r).
    destruct (py_key (payload_symbol d)) as [k' | ex] eqn:Hk.
    + rewrite (json_process_dict _ _ d k' H Hk). unfold store, series. simpl.
      destruct (decide (k' = k)) as [-> | Hne].
      * now rewrite lookup_insert_eq.
      * rewrite lookup_insert_ne by exact Hne. now rewrite app_nil_r.
    + rewrite (json_process_unhashable _ _ d ex H Hk). now rewrite app_nil_r.
  - rewrite (json_process_raises _ _ ex H). now rewrite app_nil_r.
Qed.

Lemma json_poll_cons message_offset message rest (table : gmap pykey (list pyval)) :
  let run := json_consumer_prince.process_message json_loads message table in
  json_consumer_prince.poll json_loads ((message_offset, message) :: rest) table
  = prepend ((DEBUG, json_consumer_prince.Received_message message_offset message)
             :: logged run)
      (json_consumer_prince.poll json_loads rest (store run)).
Proof.
  intros run. cbn [json_consumer_prince.poll].
  rewrite bind_emit. unfold bind at 1.
  pose proof (json_process_never_raises message table) as Hr.
  fold run in Hr |- *. destruct run as [[r s1] l1].
  unfold outcome in Hr. simpl in Hr. subst r.
  now rewrite prepend_prepend.
Qed.

Lemma json_poll_never_raises consumer (table : gmap pykey (list pyval)) :
  outcome (json_consumer_prince.poll json_loads consumer table) = Ok tt.
Proof.
  revert table. induction consumer as [| [o message] rest IH]; intros table;
    [reflexivity |].
  rewrite json_poll_cons, outcome_prepend. apply IH.
Qed.

Lemma json_poll_series consumer (table : gmap pykey (list pyval)) k :
  series k (store (json_consumer_prince.poll json_loads consumer table))
  = series k table ++ flat_map (fun r => appended json_loads k (snd r)) consumer.
Proof.
  revert table. induction consumer as [| [o message] rest IH]; intros table.
  - simpl. now rewrite app_nil_r.
  - rewrite json_poll_cons, store_prepend, IH, json_process_series.
    simpl. now rewrite app_assoc.
Qed.

Lemma json_main_store (e : json_consumer_prince.environ) consumer
    (table : gmap pykey (list pyval)) :
  outcome (json_consumer_prince.main json_loads e consumer table) = Ok tt /\
  store (json_consumer_prince.main json_loads e consumer table)
  = store (json_consumer_prince.poll json_loads consumer table).
Proof.
  unfold json_consumer_prince.main, json_consumer_prince.get_kafka_topic,
    json_consumer_prince.get_kafka_consumer_group_id.
  rewrite bind_emit, bind_assoc, bind_emit, bind_ret, bind_assoc, bind_emit, bind_ret.
  rewrite bind_emit, !outcome_prepend, !store_prepend.
  rewrite outcome_bind, store_bind.
  assert (Ht : forall l, outcome (try_except
            (bind (emit l) (fun _ => json_consumer_prince.poll json_loads consumer))
            (fun ex => emit (ERROR, json_consumer_prince.Error_while_consuming ex))
            table) = Ok tt).
  { intros l. apply outcome_try_except. reflexivity. }
  rewrite Ht. split; [reflexivity |].
  rewrite bind_emit, store_prepend. cbn [emit store fst snd].
  rewrite store_try_except by reflexivity.
  now rewrite bind_emit, store_prepend.
Qed.
End JsonMessage.

(** ** Comparisons and the extrema of a window *)

Lemma richcompare_same_kind op a b r :
  py_richcompare op a b = Ok r -> is_number a = is_number b.
Proof. destruct a, b; simpl; intros; try reflexivity; discriminate. Qed.

Lemma richcompare_raises_TypeError op a b e :
  py_richcompare op a b = Raise e -> e = TypeError.
Proof.
  revert b e. revert a. fix IH 1.
  intros [| x | x | x | x | xs | d] [| y | y | y | y | ys | d']; simpl;
    try congruence.
  revert ys. induction xs as [| x xs IHxs]; intros [| y ys] e; try discriminate.
  destruct (py_same_or_eq x y); [apply IHxs | apply IH].
Qed.

Lemma extremum_loop_kind op best rest r :
  extremum_loop op best rest = Ok r ->
  is_number r = is_number best /\
  forallb (fun x => Bool.eqb (is_number x) (is_number best)) rest = true.
Proof.
  revert best. induction rest as [| x rest IH]; intros best; simpl.
  - intros [= ->]. auto.
  - destruct (py_richcompare op x best) as [[] |] eqn:Hc; try discriminate;
      pose proof (richcompare_same_kind _ _ _ _ Hc) as Hk; intros H;
      destruct (IH _ H) as [H1 H2]; rewrite Hk in *.
    + split; [exact H1 |]. now rewrite Bool.eqb_reflx.
    + split; [exact H1 |]. now rewrite Bool.eqb_reflx.
Qed.

Lemma extremum_loop_raises op best rest e :
  extremum_loop op best rest = Raise e -> e = TypeError.
Proof.
  revert best. induction rest as [| x rest IH]; intros best; simpl; [discriminate |].
  destruct (py_richcompare op x best) as [[] |] eqn:Hc; try apply IH.
  intros [= <-]. exact (richcompare_raises_TypeError _ _ _ _ Hc).
Qed.

Lemma extrema_of_non_numbers op x rest :
  existsb (fun v => negb (is_number v)) (x :: rest) = true ->
  match extremum_loop op x rest with
  | Ok r => is_number r = false
  | Raise e => e = TypeError
  end.
Proof.
  intros Hex.
  destruct (extremum_loop op x rest) as [r | e] eqn:H;
    [| exact (extremum_loop_raises _ _ _ _ H)].
  destruct (extremum_loop_kind _ _ _ _ H) as [Hr Hall].
  rewrite Hr. simpl in Hex.
  destruct (is_number x) eqn:Hx; [| reflexivity]. simpl in Hex.
  apply existsb_exists in Hex. destruct Hex as (v & Hv & Hn).
  rewrite forallb_forall in Hall. specialize (Hall v Hv).
  destruct (is_number v); simpl in *; discriminate.
Qed.

Lemma sub_of_non_number a b :
  is_number a = false -> py_sub a b = Raise TypeError.
Proof. unfold is_number, py_sub. now destruct (as_num a). Qed.

Lemma detect_stall_non_number (e : csv_consumer_prince.environ) {S}
    (s : S) (d : deque) (w : Z) :
  configured_window_size e = Ok w ->
  w <= deque_len d ->
  existsb (fun v => negb (is_number v)) (items d) = true ->
  csv_consumer_prince.detect_stall e d s
  = (Raise TypeError, s, [(INFO, csv_consumer_prince.Rolling_window_size w)]).
Proof.
  intros Hw Hlen Hex.
  unfold csv_consumer_prince.detect_stall.
  rewrite (bind_get_rolling_window_size e w _ s Hw).
  destruct (Z.ltb_spec (deque_len d) w) as [| _]; [lia |].
  destruct (items d) as [| x rest]; [discriminate |].
  pose proof (extrema_of_non_numbers Py_GT x rest Hex) as Hmax.
  pose proof (extrema_of_non_numbers Py_LT x rest Hex) as Hmin.
  unfold py_max, py_min.
  destruct (extremum_loop Py_GT x rest) as [mx |]; [| now subst].
  rewrite bind_lift_Ok.
  destruct (extremum_loop Py_LT x rest) as [mn |]; [| now subst].
  rewrite bind_lift_Ok, (sub_of_non_number mx mn Hmax). reflexivity.
Qed.

(** ** A complete reading, step by step *)

Lemma deque_append_In (x : pyval) (d : deque) :
  1 <= maxlen d -> In x (items (deque_append x d)).
Proof.
  intros H. unfold deque_append. cbn [items maxlen].
  destruct (Z.ltb_spec (maxlen d) (Z.of_nat (length (items d ++ [x])))).
  - destruct (items d) as [| a l]; [simpl in *; lia |].
    cbn [app tail]. apply in_or_app. right. now left.
  - apply in_or_app. right. now left.
Qed.

Lemma non_number_in_window (v : pyval) (d : deque) :
  is_number v = false -> 1 <= maxlen d ->
  existsb (fun x => negb (is_number x)) (items (deque_append v d)) = true.
Proof.
  intros Hv H. apply existsb_exists. exists v.
  split; [now apply deque_append_In | now rewrite Hv].
Qed.

Lemma csv_process_reading (json_loads : string -> result pyval)
    (e : csv_consumer_prince.environ) message window_size rolling_window d v :
  json_loads message = Ok (PDict d) ->
  incomplete d = false ->
  assoc_get "calories_burned" d = Some v ->
  let window := deque_append v rolling_window in
  let check := csv_consumer_prince.detect_stall e window window in
  csv_consumer_prince.process_message json_loads e message window_size rolling_window
  = (Ok tt, window,
     [(DEBUG, csv_consumer_prince.Raw_message message);
      (INFO, csv_consumer_prince.Processed_JSON_message (PDict d))]
     ++ logged check
     ++ match outcome check with
        | Ok true =>
            [(INFO, csv_consumer_prince.STALL_DETECTED
                      (default PNone (assoc_get "timestamp" d)) v window_size)]
        | Ok false => []
        | Raise ex =>
            [(ERROR, if exn_eqb ex JSONDecodeError
                     then csv_consumer_prince.JSON_decoding_error message
                     else csv_consumer_prince.Error_processing_message message ex)]
        end).
Proof.
  intros H Hinc Hv. cbv zeta.
  rewrite <- None_in_incomplete in Hinc.
  unfold required_fields in Hinc. cbn [map] in Hinc.
  unfold csv_consumer_prince.process_message, try_except.
  rewrite bind_emit, H, bind_lift_Ok.
  rewrite !py_get_dict, !bind_lift_Ok, bind_emit, Hinc.
  rewrite bind_get, bind_put, bind_get, Hv.
  change (default PNone (Some v)) with v.
  unfold bind at 1.
  match goal with
  | |- context [csv_consumer_prince.detect_stall e ?a ?b] =>
      pose proof (detect_stall_store e a b) as Hs;
      destruct (csv_consumer_prince.detect_stall e a b) as [[r s] l]
  end.
  unfold store in Hs. simpl in Hs. subst s.
  unfold outcome, logged. simpl.
  destruct r as [[] | ex]; simpl; rewrite ?app_nil_r; try reflexivity.
  destruct (exn_eqb ex JSONDecodeError); reflexivity.
Qed.

(** * The claims of the specification *)

(** ** Stall detection *)

(** C1. On a window of exactly [windowSize] floats, whose greatest value is
    [m] and whose smallest is [n], the stall detector returns whether
    [m - n <= threshold], computed in binary64; a range equal to the
    threshold counts as stalled. *)
Theorem stalled_iff_range_within_threshold
    (e : csv_consumer_prince.environ) {S} (s : S) (d : deque)
    (w : Z) (t : float) (vs : list float) (m n : float) :
  configured_window_size e = Ok w ->
  configured_threshold e = Ok t ->
  items d = map PFloat vs ->
  Z.of_nat (length vs) = w ->
  window_max vs = Some m ->
  window_min vs = Some n ->
  outcome (csv_consumer_prince.detect_stall e d s) = Ok (m - n <=? t)%float /\
  ((m - n =? t)%float = true ->
   outcome (csv_consumer_prince.detect_stall e d s) = Ok true).
Proof.
  intros Hw Ht Hd Hlen Hmax Hmin.
  rewrite (detect_stall_full_window e s d w t vs m n Hw Ht Hd Hlen Hmax Hmin).
  split; [reflexivity |].
  intros Heq. unfold outcome. simpl. f_equal. now apply float_eqb_leb.
Qed.

Lemma stalled_iff_range_within_threshold_witness :
  let d := pushed 3 [PFloat 1; PFloat 1.5; PFloat 1.25] in
  outcome (csv_consumer_prince.detect_stall (stall_environ 3 0.5) d tt)
  = Ok (1.5 - 1 <=? 0.5)%float /\
  ((1.5 - 1 =? 0.5)%float = true ->
   outcome (csv_consumer_prince.detect_stall (stall_environ 3 0.5) d tt) = Ok true).
Proof.
  apply (stalled_iff_range_within_threshold (stall_environ 3 0.5) tt
           (pushed 3 [PFloat 1; PFloat 1.5; PFloat 1.25]) 3 0.5
           [1; 1.5; 1.25]%float 1.5 1); reflexivity.
Defined.

(** C2. While fewer than [windowSize] values have been pushed, the stall
    detector returns false, whatever the values are. *)
Theorem cold_start_not_stalled
    (e : csv_consumer_prince.environ) {S} (s : S) (w : Z) (vs : list pyval) :
  configured_window_size e = Ok w ->
  1 <= w ->
  Z.of_nat (length vs) < w ->
  outcome (csv_consumer_prince.detect_stall e (pushed w vs) s) = Ok false.
Proof.
  intros Hw Hpos Hlen.
  rewrite (detect_stall_short_window e s (pushed w vs) w Hw); [reflexivity |].
  unfold deque_len. destruct (pushed_items w vs) as [-> _]; [lia |].
  unfold lastn. rewrite length_drop. lia.
Qed.

Lemma cold_start_not_stalled_witness :
  outcome (csv_consumer_prince.detect_stall (stall_environ 3 0.5)
             (pushed 3 [PStr "n/a"; PFloat 450]) tt) = Ok false.
Proof.
  apply (cold_start_not_stalled (stall_environ 3 0.5) tt 3 [PStr "n/a"; PFloat 450]);
    [reflexivity | lia | simpl; lia].
Defined.

(** C3. For a window size [w] from 1 up to the greatest bound a deque
    takes, after [w + k] readings the window holds the last [w] metrics in
    arrival order, and after any number of records it holds at most [w]
    items. *)
Theorem window_keeps_last_values
    (json_loads : string -> result pyval) (e : csv_consumer_prince.environ)
    (consumer : list ConsumerRecord) (vs : list pyval) (w : Z) (k : nat) :
  configured_window_size e = Ok w ->
  1 <= w ->
  w < 2 ^ 63 ->
  map (reading_of json_loads) consumer = map Some vs ->
  length vs = (Z.to_nat w + k)%nat ->
  (exists window log,
     csv_consumer_prince.main json_loads e consumer = (Ok window, log) /\
     items window = skipn k vs) /\
  (forall n, exists window log,
     csv_consumer_prince.main json_loads e (firstn n consumer) = (Ok window, log) /\
     deque_len window <= w).
Proof.
  intros Hw Hpos Hfit Hr Hlen. split.
  - destruct (csv_main_window json_loads e consumer w Hw) as [log Hmain]; [lia |].
    eexists _, log. split; [exact Hmain |].
    rewrite (csv_poll_readings json_loads e consumer vs w _ Hr).
    destruct (pushed_items w vs) as [Hi _]; [lia |].
    unfold pushed in Hi. rewrite Hi. unfold lastn. f_equal. lia.
  - intros n.
    destruct (csv_main_window json_loads e (firstn n consumer) w Hw)
      as [log Hmain]; [lia |].
    eexists _, log. split; [exact Hmain |].
    apply (csv_poll_bounded json_loads e (firstn n consumer) w
             {| items := []; maxlen := w |}); unfold deque_len; simpl; lia.
Qed.

Lemma window_keeps_last_values_witness :
  (exists window log,
     csv_consumer_prince.main json.loads (stall_environ 2 0.5)
       [health_record "450.0"; health_record "451"; health_record "452.5"]
     = (Ok window, log) /\
     items window = skipn 1 [PFloat 450; PInt 451; PFloat 452.5]) /\
  (forall n, exists window log,
     csv_consumer_prince.main json.loads (stall_environ 2 0.5)
       (firstn n [health_record "450.0"; health_record "451"; health_record "452.5"])
     = (Ok window, log) /\
     deque_len window <= 2).
Proof.
  apply (window_keeps_last_values json.loads (stall_environ 2 0.5)
           [health_record "450.0"; health_record "451"; health_record "452.5"]
           [PFloat 450; PInt 451; PFloat 452.5] 2 1);
    [reflexivity | lia | lia | vm_compute; reflexivity | reflexivity].
Defined.

(** ** Series aggregation *)

(** C4. The series stored for a key is the sequence of the values appended
    for that key, in arrival order, none dropped, however many there are. *)
Theorem series_in_arrival_order
    (json_loads : string -> result pyval) (e : json_consumer_prince.environ)
    (consumer : list (Z * string)) (k : pykey) :
  series k (store (json_consumer_prince.main json_loads e consumer
                     json_consumer_prince.stock_prices))
  = flat_map (fun message => appended json_loads k (snd message)) consumer.
Proof.
  destruct (json_main_store json_loads e consumer json_consumer_prince.stock_prices)
    as [_ ->].
  rewrite json_poll_series. unfold series, json_consumer_prince.stock_prices.
  now rewrite lookup_empty.
Qed.

(** C9. A message appends to the series of its own symbol only: the
    series of every other key is left as it was. *)
Theorem other_series_unchanged
    (json_loads : string -> result pyval) (message : string)
    (table : gmap pykey (list pyval)) (d : list (string * pyval))
    (k1 k2 : pykey) :
  json_loads message = Ok (PDict d) ->
  py_key (payload_symbol d) = Ok k1 ->
  k1 <> k2 ->
  store (json_consumer_prince.process_message json_loads message table) !! k2
  = table !! k2.
Proof.
  intros H Hk Hne. rewrite (json_process_dict json_loads message table d k1 H Hk).
  unfold store. simpl. now apply lookup_insert_ne.
Qed.

Lemma other_series_unchanged_witness :
  store (json_consumer_prince.process_message json.loads
           (price_body "'AAPL'" "150.25") {[ KStr "GOOGL" := [PFloat 99.5] ]})
    !! KStr "GOOGL"
  = ({[ KStr "GOOGL" := [PFloat 99.5] ]} : gmap pykey (list pyval)) !! KStr "GOOGL".
Proof.
  apply (other_series_unchanged json.loads (price_body "'AAPL'" "150.25")
           {[ KStr "GOOGL" := [PFloat 99.5] ]}
           [("timestamp", PStr "2025-01-25T10:00:00"); ("symbol", PStr "AAPL");
            ("price", PFloat 150.25)]
           (KStr "AAPL") (KStr "GOOGL"));
    [vm_compute; reflexivity | reflexivity | discriminate].
Defined.

(** C10. A message that decodes to a value that is not an object is
    rejected: the table is left as it was, an error is logged and no
    exception leaves [process_message]. *)
Theorem non_object_payload_rejected
    (json_loads : string -> result pyval) (message : string)
    (table : gmap pykey (list pyval)) (v : pyval) :
  json_loads message = Ok v ->
  is_dict v = false ->
  json_consumer_prince.process_message json_loads message table
  = (Ok tt, table,
     [(DEBUG, json_consumer_prince.Raw_message message);
      (INFO, json_consumer_prince.Processed_JSON_message v);
      (ERROR, json_consumer_prince.Expected_a_dictionary v)]).
Proof. apply json_process_not_dict. Qed.

Lemma non_object_payload_rejected_witness :
  json_consumer_prince.process_message json.loads "[1, 2]"
    {[ KStr "AAPL" := [PFloat 150.25] ]}
  = (Ok tt, {[ KStr "AAPL" := [PFloat 150.25] ]},
     [(DEBUG, json_consumer_prince.Raw_message "[1, 2]");
      (INFO, json_consumer_prince.Processed_JSON_message (PList [PInt 1; PInt 2]));
      (ERROR, json_consumer_prince.Expected_a_dictionary (PList [PInt 1; PInt 2]))]).
Proof.
  apply (non_object_payload_rejected json.loads "[1, 2]"
           {[ KStr "AAPL" := [PFloat 150.25] ]} (PList [PInt 1; PInt 2]));
    [vm_compute; reflexivity | reflexivity].
Defined.

(** ** Failed decodes *)

(** C6. A message that is not JSON is reported as a decoding error by
    both consumers; the window and the table are left as they were, no
    exception leaves [process_message], and the loop goes on with the
    records that follow. *)
Theorem malformed_payload_skipped
    (json_loads : string -> result pyval) (e : csv_consumer_prince.environ)
    (message : string) (window_size : Z) (rolling_window : deque)
    (table : gmap pykey (list pyval)) :
  json_loads message = Raise JSONDecodeError ->
  csv_consumer_prince.process_message json_loads e message window_size rolling_window
  = (Ok tt, rolling_window,
     [(DEBUG, csv_consumer_prince.Raw_message message);
      (ERROR, csv_consumer_prince.JSON_decoding_error message)]) /\
  json_consumer_prince.process_message json_loads message table
  = (Ok tt, table,
     [(DEBUG, json_consumer_prince.Raw_message message);
      (ERROR, json_consumer_prince.Invalid_JSON_message message)]) /\
  (forall o rest,
     csv_consumer_prince.poll json_loads e
       ({| offset := o; value := VStr message |} :: rest) window_size rolling_window
     = prepend [(DEBUG, csv_consumer_prince.Received_message o message);
                (DEBUG, csv_consumer_prince.Raw_message message);
                (ERROR, csv_consumer_prince.JSON_decoding_error message)]
         (csv_consumer_prince.poll json_loads e rest window_size rolling_window)) /\
  (forall o rest,
     json_consumer_prince.poll json_loads ((o, message) :: rest) table
     = prepend [(DEBUG, json_consumer_prince.Received_message o message);
                (DEBUG, json_consumer_prince.Raw_message message);
                (ERROR, json_consumer_prince.Invalid_JSON_message message)]
         (json_consumer_prince.poll json_loads rest table)).
Proof.
  intros H.
  pose proof (csv_process_decode_error json_loads e message window_size
                rolling_window H) as Hc.
  pose proof (json_process_decode_error json_loads message table H) as Hj.
  repeat split; [exact Hc | exact Hj | |].
  - intros o rest.
    rewrite (csv_poll_cons json_loads e {| offset := o; value := VStr message |}
               rest window_size rolling_window message eq_refl).
    now rewrite Hc.
  - intros o rest. now rewrite json_poll_cons, Hj.
Qed.

Lemma malformed_payload_skipped_witness :
  let message := "{not json" in
  let window := pushed 3 [PFloat 450] in
  let table : gmap pykey (list pyval) := {[ KStr "AAPL" := [PFloat 150.25] ]} in
  csv_consumer_prince.process_message json.loads (stall_environ 3 0.5) message 3 window
  = (Ok tt, window,
     [(DEBUG, csv_consumer_prince.Raw_message message);
      (ERROR, csv_consumer_prince.JSON_decoding_error message)]) /\
  json_consumer_prince.process_message json.loads message table
  = (Ok tt, table,
     [(DEBUG, json_consumer_prince.Raw_message message);
      (ERROR, json_consumer_prince.Invalid_JSON_message message)]) /\
  (forall o rest,
     csv_consumer_prince.poll json.loads (stall_environ 3 0.5)
       ({| offset := o; value := VStr message |} :: rest) 3 window
     = prepend [(DEBUG, csv_consumer_prince.Received_message o message);
                (DEBUG, csv_consumer_prince.Raw_message message);
                (ERROR, csv_consumer_prince.JSON_decoding_error message)]
         (csv_consumer_prince.poll json.loads (stall_environ 3 0.5) rest 3 window)) /\
  (forall o rest,
     json_consumer_prince.poll json.loads ((o, message) :: rest) table
     = prepend [(DEBUG, json_consumer_prince.Received_message o message);
                (DEBUG, json_consumer_prince.Raw_message message);
                (ERROR, json_consumer_prince.Invalid_JSON_message message)]
         (json_consumer_prince.poll json.loads rest table)).
Proof.
  apply (malformed_payload_skipped json.loads (stall_environ 3 0.5) "{not json" 3
           (pushed 3 [PFloat 450]) {[ KStr "AAPL" := [PFloat 150.25] ]}).
  vm_compute. reflexivity.
Defined.

(** C8. In the stall pipeline a decoded message with a required field
    missing or null is discarded: nothing is appended to the window, no
    exception leaves [process_message], and the loop goes on with the
    records that follow. *)
Theorem incomplete_record_discarded
    (json_loads : string -> result pyval) (e : csv_consumer_prince.environ)
    (message : string) (window_size : Z) (rolling_window : deque) (v : pyval) :
  json_loads message = Ok v ->
  lacks_required_field v = true ->
  let run := csv_consumer_prince.process_message json_loads e message window_size
               rolling_window in
  outcome run = Ok tt /\
  store run = rolling_window /\
  (forall d, v = PDict d ->
     logged run
     = [(DEBUG, csv_consumer_prince.Raw_message message);
        (INFO, csv_consumer_prince.Processed_JSON_message (PDict d));
        (ERROR, csv_consumer_prince.Invalid_message_format message)]) /\
  (forall o rest,
     csv_consumer_prince.poll json_loads e
       ({| offset := o; value := VStr message |} :: rest) window_size rolling_window
     = prepend ((DEBUG, csv_consumer_prince.Received_message o message) :: logged run)
         (csv_consumer_prince.poll json_loads e rest window_size rolling_window)).
Proof.
  intros H Hv run.
  assert (Hs : store run = rolling_window).
  { subst run. destruct v; simpl in Hv;
      try (rewrite (csv_process_not_dict _ _ _ _ _ _ H) by reflexivity;
           reflexivity).
    now rewrite (csv_process_incomplete _ _ _ _ _ d H Hv). }
  split; [apply csv_process_never_raises |].
  split; [exact Hs |]. split.
  - intros d ->. subst run. simpl in Hv.
    now rewrite (csv_process_incomplete _ _ _ _ _ d H Hv).
  - intros o rest.
    rewrite (csv_poll_cons json_loads e {| offset := o; value := VStr message |}
               rest window_size rolling_window message eq_refl).
    fold run. now rewrite Hs.
Qed.

Lemma incomplete_record_discarded_witness :
  let message := body "{'timestamp': '2025-01-11T18:15:00Z', 'steps': null}" in
  let window := pushed 3 [PFloat 450] in
  let run := csv_consumer_prince.process_message json.loads (stall_environ 3 0.5)
               message 3 window in
  outcome run = Ok tt /\
  store run = window /\
  (forall d,
     PDict [("timestamp", PStr "2025-01-11T18:15:00Z"); ("steps", PNone)] = PDict d ->
     logged run
     = [(DEBUG, csv_consumer_prince.Raw_message message);
        (INFO, csv_consumer_prince.Processed_JSON_message (PDict d));
        (ERROR, csv_consumer_prince.Invalid_message_format message)]) /\
  (forall o rest,
     csv_consumer_prince.poll json.loads (stall_environ 3 0.5)
       ({| offset := o; value := VStr message |} :: rest) 3 window
     = prepend ((DEBUG, csv_consumer_prince.Received_message o message) :: logged run)
         (csv_consumer_prince.poll json.loads (stall_environ 3 0.5) rest 3 window)).
Proof.
  apply (incomplete_record_discarded json.loads (stall_environ 3 0.5)
           (body "{'timestamp': '2025-01-11T18:15:00Z', 'steps': null}") 3
           (pushed 3 [PFloat 450])
           (PDict [("timestamp", PStr "2025-01-11T18:15:00Z"); ("steps", PNone)]));
    [vm_compute; reflexivity | reflexivity].
Defined.

(** C5, as the code has it. A decoded object without [price] is not
    refused: the default price 0.0 is appended to the series of its
    symbol, and no error is logged. *)
Theorem missing_price_defaults_to_zero
    (json_loads : string -> result pyval) (message : string)
    (table : gmap pykey (list pyval)) (d : list (string * pyval)) (k : pykey) :
  json_loads message = Ok (PDict d) ->
  assoc_get "price" d = None ->
  py_key (payload_symbol d) = Ok k ->
  let run := json_consumer_prince.process_message json_loads message table in
  outcome run = Ok tt /\
  series k (store run) = series k table ++ [PFloat 0.0] /\
  forallb (fun r => match fst r with ERROR => false | _ => true end) (logged run)
  = true.
Proof.
  intros H Hp Hk run. subst run.
  rewrite (json_process_dict json_loads message table d k H Hk).
  unfold payload_price. rewrite Hp. unfold outcome, store, series, logged. simpl.
  now rewrite lookup_insert_eq.
Qed.

Lemma missing_price_defaults_to_zero_witness :
  let message := body "{'timestamp': '2025-01-25T10:00:00', 'symbol': 'AAPL'}" in
  let table : gmap pykey (list pyval) := {[ KStr "AAPL" := [PFloat 150.25] ]} in
  let run := json_consumer_prince.process_message json.loads message table in
  outcome run = Ok tt /\
  series (KStr "AAPL") (store run) = series (KStr "AAPL") table ++ [PFloat 0.0] /\
  forallb (fun r => match fst r with ERROR => false | _ => true end) (logged run)
  = true.
Proof.
  apply (missing_price_defaults_to_zero json.loads
           (body "{'timestamp': '2025-01-25T10:00:00', 'symbol': 'AAPL'}")
           {[ KStr "AAPL" := [PFloat 150.25] ]}
           [("timestamp", PStr "2025-01-25T10:00:00"); ("symbol", PStr "AAPL")]
           (KStr "AAPL"));
    [vm_compute; reflexivity | reflexivity | reflexivity].
Defined.

(** C5 as stated fails: the payload below has no [price], yet its symbol's
    series changes from [150.25] to [150.25, 0.0] and nothing is reported
    as an error. *)
Lemma missing_price_counterexample :
  let message := body "{'timestamp': '2025-01-25T10:00:00', 'symbol': 'AAPL'}" in
  let table : gmap pykey (list pyval) := {[ KStr "AAPL" := [PFloat 150.25] ]} in
  let run := json_consumer_prince.process_message json.loads message table in
  json.loads message
  = Ok (PDict [("timestamp", PStr "2025-01-25T10:00:00"); ("symbol", PStr "AAPL")]) /\
  series (KStr "AAPL") table = [PFloat 150.25] /\
  series (KStr "AAPL") (store run) = [PFloat 150.25; PFloat 0.0] /\
  series (KStr "AAPL") (store run) <> series (KStr "AAPL") table /\
  logged run
  = [(DEBUG, json_consumer_prince.Raw_message message);
     (INFO, json_consumer_prince.Processed_JSON_message
              (PDict [("timestamp", PStr "2025-01-25T10:00:00");
                      ("symbol", PStr "AAPL")]));
     (INFO, json_consumer_prince.Message_received (PStr "AAPL") (PFloat 0.0)
              (PStr "2025-01-25T10:00:00"));
     (INFO, json_consumer_prince.Updated_prices (PStr "AAPL")
              [PFloat 150.25; PFloat 0.0])].
Proof.
  cbv zeta.
  assert (Hl : json.loads (body "{'timestamp': '2025-01-25T10:00:00', 'symbol': 'AAPL'}")
               = Ok (PDict [("timestamp", PStr "2025-01-25T10:00:00");
                            ("symbol", PStr "AAPL")])) by (vm_compute; reflexivity).
  rewrite (json_process_dict json.loads _ _ _ (KStr "AAPL") Hl eq_refl).
  unfold store, logged, series. simpl.
  rewrite lookup_insert_eq, lookup_singleton_eq. simpl.
  repeat split; try assumption. discriminate.
Qed.

(** C7, as the code has it. The metric of an accepted payload is stored
    exactly as the decoder built it: it is neither coerced to a float nor
    checked to be a number before it is stored, and the message is
    processed to its end. The aggregation consumer appends it to the
    series of the payload's symbol and logs no error, whatever it is. The
    stall consumer appends it to the window; for a metric that is not a
    number it then logs the window size and, while the window is below
    that size, that it waits; once the window is full, [detect_stall]
    raises [TypeError] on the window that now holds the metric, which is
    logged as an error in processing, and the metric stays. *)
Theorem metric_stored_as_decoded
    (json_loads : string -> result pyval) (e : csv_consumer_prince.environ)
    (window_size : Z) (rolling_window : deque) (table : gmap pykey (list pyval))
    (reading : string) (fields : list (string * pyval)) (v : pyval) (w : Z)
    (quote : string) (d : list (string * pyval)) (k : pykey) :
  json_loads reading = Ok (PDict fields) ->
  incomplete fields = false ->
  assoc_get "calories_burned" fields = Some v ->
  configured_window_size e = Ok w ->
  1 <= maxlen rolling_window ->
  json_loads quote = Ok (PDict d) ->
  py_key (payload_symbol d) = Ok k ->
  let window := deque_append v rolling_window in
  let stall := csv_consumer_prince.process_message json_loads e reading
                 window_size rolling_window in
  let aggregation := json_consumer_prince.process_message json_loads quote table in
  (outcome stall = Ok tt /\
   store stall = window /\
   (is_number v = false ->
    logged stall
    = [(DEBUG, csv_consumer_prince.Raw_message reading);
       (INFO, csv_consumer_prince.Processed_JSON_message (PDict fields));
       (INFO, csv_consumer_prince.Rolling_window_size w);
       if deque_len window <? w
       then (DEBUG, csv_consumer_prince.Waiting_for (deque_len window) w)
       else (ERROR, csv_consumer_prince.Error_processing_message reading
                      TypeError)])) /\
  aggregation
  = (Ok tt, <[k := series k table ++ [payload_price d]]> table,
     [(DEBUG, json_consumer_prince.Raw_message quote);
      (INFO, json_consumer_prince.Processed_JSON_message (PDict d));
      (INFO, json_consumer_prince.Message_received (payload_symbol d)
               (payload_price d)
               (default (PStr "unknown_time") (assoc_get "timestamp" d)));
      (INFO, json_consumer_prince.Updated_prices (payload_symbol d)
               (series k table ++ [payload_price d]))]).
Proof.
  intros Hr Hc Hv Hw Hmax Hq Hk window stall aggregation.
  split; [split; [| split] |].
  - apply csv_process_never_raises.
  - apply (csv_process_complete json_loads e _ _ _ fields v Hr Hc Hv).
  - intros Hnon. subst stall.
    rewrite (csv_process_reading json_loads e reading window_size rolling_window
               fields v Hr Hc Hv).
    fold window.
    destruct (Z.ltb_spec (deque_len window) w) as [Hshort | Hfull].
    + now rewrite (detect_stall_short_window e window window w Hw Hshort).
    + rewrite (detect_stall_non_number e window window w Hw Hfull
                 (non_number_in_window v rolling_window Hnon Hmax)).
      reflexivity.
  - apply (json_process_dict json_loads quote table d k Hq Hk).
Qed.

Lemma metric_stored_as_decoded_witness :
  let table : gmap pykey (list pyval) := {[ KStr "AAPL" := [PFloat 150.25] ]} in
  let fields := [("timestamp", PStr "2025-01-11T18:15:00Z"); ("steps", PInt 12500);
                 ("heart_rate", PInt 80); ("calories_burned", PStr "abc");
                 ("sleep_hours", PFloat 7); ("hydration_liters", PFloat 2.5)] in
  let d := [("timestamp", PStr "2025-01-25T10:00:00"); ("symbol", PStr "AAPL");
            ("price", PStr "abc")] in
  let stall := csv_consumer_prince.process_message json.loads (stall_environ 2 0.5)
                 (health_body "'abc'") 2 (pushed 2 [PFloat 450]) in
  let aggregation := json_consumer_prince.process_message json.loads
                       (price_body "'AAPL'" "'abc'") table in
  (outcome stall = Ok tt /\
   store stall = {| items := [PFloat 450; PStr "abc"]; maxlen := 2 |} /\
   logged stall
   = [(DEBUG, csv_consumer_prince.Raw_message (health_body "'abc'"));
      (INFO, csv_consumer_prince.Processed_JSON_message (PDict fields));
      (INFO, csv_consumer_prince.Rolling_window_size 2);
      (ERROR, csv_consumer_prince.Error_processing_message (health_body "'abc'")
                TypeError)]) /\
  aggregation
  = (Ok tt, <[KStr "AAPL" := [PFloat 150.25; PStr "abc"]]> table,
     [(DEBUG, json_consumer_prince.Raw_message (price_body "'AAPL'" "'abc'"));
      (INFO, json_consumer_prince.Processed_JSON_message (PDict d));
      (INFO, json_consumer_prince.Message_received (PStr "AAPL") (PStr "abc")
               (PStr "2025-01-25T10:00:00"));
      (INFO, json_consumer_prince.Updated_prices (PStr "AAPL")
               [PFloat 150.25; PStr "abc"])]).
Proof.
  cbv zeta.
  assert (Hr : json.loads (health_body "'abc'")
               = Ok (PDict [("timestamp", PStr "2025-01-11T18:15:00Z");
                            ("steps", PInt 12500); ("heart_rate", PInt 80);
                            ("calories_burned", PStr "abc");
                            ("sleep_hours", PFloat 7);
                            ("hydration_liters", PFloat 2.5)]))
    by (vm_compute; reflexivity).
  assert (Hq : json.loads (price_body "'AAPL'" "'abc'")
               = Ok (PDict [("timestamp", PStr "2025-01-25T10:00:00");
                            ("symbol", PStr "AAPL"); ("price", PStr "abc")]))
    by (vm_compute; reflexivity).
  assert (Hmax : 1 <= maxlen (pushed 2 [PFloat 450])) by (simpl; lia).
  destruct (metric_stored_as_decoded json.loads (stall_environ 2 0.5) 2
              (pushed 2 [PFloat 450]) {[ KStr "AAPL" := [PFloat 150.25] ]}
              (health_body "'abc'") _ (PStr "abc") 2
              (price_body "'AAPL'" "'abc'") _ (KStr "AAPL")
              Hr eq_refl eq_refl eq_refl Hmax Hq eq_refl)
    as [(Houtcome & Hstore & Hlogged) Haggregation].
  split; [split; [| split] |].
  - exact Houtcome.
  - exact Hstore.
  - exact (Hlogged eq_refl).
  - rewrite Haggregation. unfold series. now rewrite lookup_singleton_eq.
Defined.

(** C7 as stated fails. A price that is a string is appended to the
    series and no error is logged; an integer price stays an integer. A
    metric that is a string is appended to the rolling window: nothing is
    reported while the window is not full, and on a full window the
    [TypeError] of the stall detection is logged with the metric already
    in the window. *)
Lemma non_numeric_metric_counterexample :
  let text_price :=
    json_consumer_prince.process_message json.loads (price_body "'AAPL'" "'abc'")
      json_consumer_prince.stock_prices in
  let int_price :=
    json_consumer_prince.process_message json.loads (price_body "'AAPL'" "150")
      json_consumer_prince.stock_prices in
  let fields := [("timestamp", PStr "2025-01-11T18:15:00Z"); ("steps", PInt 12500);
                 ("heart_rate", PInt 80); ("calories_burned", PStr "abc");
                 ("sleep_hours", PFloat 7); ("hydration_liters", PFloat 2.5)] in
  let waiting :=
    csv_consumer_prince.process_message json.loads (stall_environ 3 0.5)
      (health_body "'abc'") 3 (pushed 3 []) in
  let full :=
    csv_consumer_prince.process_message json.loads (stall_environ 2 0.5)
      (health_body "'abc'") 2 (pushed 2 [PFloat 450]) in
  (outcome text_price = Ok tt /\
   series (KStr "AAPL") (store text_price) = [PStr "abc"] /\
   logged text_price
   = [(DEBUG, json_consumer_prince.Raw_message (price_body "'AAPL'" "'abc'"));
      (INFO, json_consumer_prince.Processed_JSON_message
               (PDict [("timestamp", PStr "2025-01-25T10:00:00");
                       ("symbol", PStr "AAPL"); ("price", PStr "abc")]));
      (INFO, json_consumer_prince.Message_received (PStr "AAPL") (PStr "abc")
               (PStr "2025-01-25T10:00:00"));
      (INFO, json_consumer_prince.Updated_prices (PStr "AAPL") [PStr "abc"])]) /\
  (series (KStr "AAPL") (store int_price) = [PInt 150] /\
   series (KStr "AAPL") (store int_price) <> [PFloat 150]) /\
  (items (pushed 3 []) = [] /\
   waiting
   = (Ok tt, {| items := [PStr "abc"]; maxlen := 3 |},
      [(DEBUG, csv_consumer_prince.Raw_message (health_body "'abc'"));
       (INFO, csv_consumer_prince.Processed_JSON_message (PDict fields));
       (INFO, csv_consumer_prince.Rolling_window_size 3);
       (DEBUG, csv_consumer_prince.Waiting_for 1 3)])) /\
  (items (pushed 2 [PFloat 450]) = [PFloat 450] /\
   full
   = (Ok tt, {| items := [PFloat 450; PStr "abc"]; maxlen := 2 |},
      [(DEBUG, csv_consumer_prince.Raw_message (health_body "'abc'"));
       (INFO, csv_consumer_prince.Processed_JSON_message (PDict fields));
       (INFO, csv_consumer_prince.Rolling_window_size 2);
       (ERROR, csv_consumer_prince.Error_processing_message (health_body "'abc'")
                 TypeError)])).
Proof.
  cbv zeta.
  assert (H1 : json.loads (price_body "'AAPL'" "'abc'")
               = Ok (PDict [("timestamp", PStr "2025-01-25T10:00:00");
                            ("symbol", PStr "AAPL"); ("price", PStr "abc")]))
    by (vm_compute; reflexivity).
  assert (H2 : json.loads (price_body "'AAPL'" "150")
               = Ok (PDict [("timestamp", PStr "2025-01-25T10:00:00");
                            ("symbol", PStr "AAPL"); ("price", PInt 150)]))
    by (vm_compute; reflexivity).
  rewrite (json_process_dict json.loads _ _ _ (KStr "AAPL") H1 eq_refl).
  rewrite (json_process_dict json.loads _ _ _ (KStr "AAPL") H2 eq_refl).
  unfold outcome, store, logged, series, json_consumer_prince.stock_prices.
  cbn [fst snd].
  rewrite !lookup_insert_eq, lookup_empty. cbn [default app].
  repeat split; try (vm_compute; reflexivity). discriminate.
Qed.

(** ** The scenario of the specification

    Window size 3 and threshold 0.2: the readings 450.0, 450.1 and 450.05
    fill the window and are a stall; the reading 500.0 then evicts 450.0
    and the window is no longer one. *)
Example scenario_stalled :
  outcome (csv_consumer_prince.detect_stall (stall_environ 3 0.2)
             (pushed 3 [PFloat 450.0; PFloat 450.1; PFloat 450.05]) tt)
  = Ok true.
Proof. vm_compute. reflexivity. Qed.

Example scenario_not_stalled :
  items (pushed 3 [PFloat 450.0; PFloat 450.1; PFloat 450.05; PFloat 500.0])
  = [PFloat 450.1; PFloat 450.05; PFloat 500.0] /\
  outcome (csv_consumer_prince.detect_stall (stall_environ 3 0.2)
             (pushed 3 [PFloat 450.0; PFloat 450.1; PFloat 450.05; PFloat 500.0]) tt)
  = Ok false.
Proof. split; vm_compute; reflexivity. Qed.

(** Three price messages, two of them for one symbol: each series holds
    its own prices in arrival order. *)
Example series_example :
  let table :=
    store (json_consumer_prince.main json.loads
             {| json_consumer_prince.BUZZ_TOPIC := None;
                json_consumer_prince.BUZZ_CONSUMER_GROUP_ID := None |}
             [(0, price_body "'AAPL'" "150.25"); (1, price_body "'GOOGL'" "99.5");
              (2, price_body "'AAPL'" "151")]
             json_consumer_prince.stock_prices) in
  series (KStr "AAPL") table = [PFloat 150.25; PInt 151] /\
  series (KStr "GOOGL") table = [PFloat 99.5].
Proof.
  split; vm_compute; reflexivity.
Qed.

(** * Further properties of the consumers *)

(** ** The stall consumer *)

(** X1. [process_message] of the stall consumer returns normally for
    every message, whatever the decoder and the environment do. *)
Theorem stall_consumer_never_raises
    (json_loads : string -> result pyval) (e : csv_consumer_prince.environ)
    (message : string) (window_size : Z) (rolling_window : deque) :
  outcome (csv_consumer_prince.process_message json_loads e message window_size
             rolling_window) = Ok tt.
Proof.
  unfold csv_consumer_prince.process_message.
  apply outcome_try_except. intros ex s'.
  destruct (exn_eqb ex JSONDecodeError); reflexivity.
Qed.

Lemma csv_store_window_after
    (json_loads : string -> result pyval) (e : csv_consumer_prince.environ)
    (message : string) (window_size : Z) (rolling_window : deque) :
  store (csv_consumer_prince.process_message json_loads e message window_size
           rolling_window)
  = window_after json_loads message rolling_window.
Proof.
  unfold window_after.
  destruct (json_loads message) as [v | ex] eqn:H.
  - destruct v;
      try (rewrite (csv_process_not_dict _ _ _ _ _ _ H) by reflexivity;
           reflexivity).
    apply (csv_process_dict_store json_loads e message window_size
             rolling_window d H).
  - unfold csv_consumer_prince.process_message.
    rewrite store_try_except by (intros; apply csv_handler_store).
    rewrite bind_emit, store_prepend, H, bind_lift_Raise. reflexivity.
Qed.

(** X2. The window after a message is the window before with the metric
    of the message appended when the message is a complete reading, and
    the window before in every other case: a decoder failure of any
    kind, a payload that is not an object, a missing or null field, and
    whatever the stall detection does afterwards. *)
Theorem window_transition
    (json_loads : string -> result pyval) (e : csv_consumer_prince.environ)
    (message : string) (window_size : Z) (rolling_window : deque) :
  store (csv_consumer_prince.process_message json_loads e message window_size
           rolling_window)
  = window_after json_loads message rolling_window.
Proof. apply csv_store_window_after. Qed.

(** X3. A payload that decodes to something other than an object is
    reported by the stall consumer as an error in processing (it has no
    [get]), before anything is appended. *)
Theorem stall_consumer_rejects_non_object
    (json_loads : string -> result pyval) (e : csv_consumer_prince.environ)
    (message : string) (window_size : Z) (rolling_window : deque) (v : pyval) :
  json_loads message = Ok v ->
  is_dict v = false ->
  csv_consumer_prince.process_message json_loads e message window_size rolling_window
  = (Ok tt, rolling_window,
     [(DEBUG, csv_consumer_prince.Raw_message message);
      (ERROR, csv_consumer_prince.Error_processing_message message AttributeError)]).
Proof. apply csv_process_not_dict. Qed.

Lemma stall_consumer_rejects_non_object_witness :
  csv_consumer_prince.process_message json.loads (stall_environ 3 0.5) "[1, 2]" 3
    (pushed 3 [PFloat 450])
  = (Ok tt, pushed 3 [PFloat 450],
     [(DEBUG, csv_consumer_prince.Raw_message "[1, 2]");
      (ERROR, csv_consumer_prince.Error_processing_message "[1, 2]" AttributeError)]).
Proof.
  apply (stall_consumer_rejects_non_object json.loads (stall_environ 3 0.5)
           "[1, 2]" 3 (pushed 3 [PFloat 450]) (PList [PInt 1; PInt 2]));
    [vm_compute; reflexivity | reflexivity].
Defined.

(** X4. On a full window that holds a value that is not a number, the
    stall detector raises [TypeError], from [max], from [min] or from the
    subtraction, before the threshold is read. *)
Theorem non_number_breaks_detection
    (e : csv_consumer_prince.environ) {S} (s : S) (d : deque) (w : Z) :
  configured_window_size e = Ok w ->
  w <= deque_len d ->
  existsb (fun v => negb (is_number v)) (items d) = true ->
  csv_consumer_prince.detect_stall e d s
  = (Raise TypeError, s, [(INFO, csv_consumer_prince.Rolling_window_size w)]).
Proof. apply detect_stall_non_number. Qed.

Lemma non_number_breaks_detection_witness :
  csv_consumer_prince.detect_stall (stall_environ 2 0.5)
    (pushed 2 [PFloat 450; PStr "n/a"]) tt
  = (Raise TypeError, tt, [(INFO, csv_consumer_prince.Rolling_window_size 2)]).
Proof.
  apply (non_number_breaks_detection (stall_environ 2 0.5) tt
           (pushed 2 [PFloat 450; PStr "n/a"]) 2);
    [reflexivity | vm_compute; discriminate | reflexivity].
Defined.

(** X5. A complete reading is appended before the stall detection runs:
    when the detection then fails on a non-number in the full window, the
    failure is logged as an error in processing and the reading stays in
    the window. *)
Theorem reading_kept_when_detection_fails
    (json_loads : string -> result pyval) (e : csv_consumer_prince.environ)
    (message : string) (window_size : Z) (rolling_window : deque)
    (d : list (string * pyval)) (v : pyval) (w : Z) :
  json_loads message = Ok (PDict d) ->
  incomplete d = false ->
  assoc_get "calories_burned" d = Some v ->
  configured_window_size e = Ok w ->
  w <= deque_len (deque_append v rolling_window) ->
  existsb (fun x => negb (is_number x)) (items (deque_append v rolling_window))
  = true ->
  csv_consumer_prince.process_message json_loads e message window_size rolling_window
  = (Ok tt, deque_append v rolling_window,
     [(DEBUG, csv_consumer_prince.Raw_message message);
      (INFO, csv_consumer_prince.Processed_JSON_message (PDict d));
      (INFO, csv_consumer_prince.Rolling_window_size w);
      (ERROR, csv_consumer_prince.Error_processing_message message TypeError)]).
Proof.
  intros H Hc Hv Hw Hlen Hex.
  rewrite (csv_process_reading json_loads e message window_size rolling_window
             d v H Hc Hv).
  rewrite (detect_stall_non_number e _ _ w Hw Hlen Hex). reflexivity.
Qed.

Lemma reading_kept_when_detection_fails_witness :
  csv_consumer_prince.process_message json.loads (stall_environ 2 0.5)
    (health_body "'n/a'") 2 (pushed 2 [PFloat 450])
  = (Ok tt, deque_append (PStr "n/a") (pushed 2 [PFloat 450]),
     [(DEBUG, csv_consumer_prince.Raw_message (health_body "'n/a'"));
      (INFO, csv_consumer_prince.Processed_JSON_message
               (PDict [("timestamp", PStr "2025-01-11T18:15:00Z");
                       ("steps", PInt 12500); ("heart_rate", PInt 80);
                       ("calories_burned", PStr "n/a");
                       ("sleep_hours", PFloat 7);
                       ("hydration_liters", PFloat 2.5)]));
      (INFO, csv_consumer_prince.Rolling_window_size 2);
      (ERROR, csv_consumer_prince.Error_processing_message (health_body "'n/a'")
                TypeError)]).
Proof.
  apply (reading_kept_when_detection_fails json.loads (stall_environ 2 0.5)
           (health_body "'n/a'") 2 (pushed 2 [PFloat 450])
           [("timestamp", PStr "2025-01-11T18:15:00Z"); ("steps", PInt 12500);
            ("heart_rate", PInt 80); ("calories_burned", PStr "n/a");
            ("sleep_hours", PFloat 7); ("hydration_liters", PFloat 2.5)]
           (PStr "n/a") 2);
    [vm_compute; reflexivity | reflexivity | reflexivity | reflexivity
    | vm_compute; discriminate | reflexivity].
Defined.

(** X6. For a complete reading, [process_message] logs the raw and the
    decoded message, then what the stall detection logs on the window
    with the reading appended, then the stall with the timestamp, the
    metric and the window size when the detection returns true, nothing
    when it returns false, and the error when it raises. *)
Theorem stall_reported_with_reading
    (json_loads : string -> result pyval) (e : csv_consumer_prince.environ)
    (message : string) (window_size : Z) (rolling_window : deque)
    (d : list (string * pyval)) (v : pyval) :
  json_loads message = Ok (PDict d) ->
  incomplete d = false ->
  assoc_get "calories_burned" d = Some v ->
  let window := deque_append v rolling_window in
  let check := csv_consumer_prince.detect_stall e window window in
  logged (csv_consumer_prince.process_message json_loads e message window_size
            rolling_window)
  = [(DEBUG, csv_consumer_prince.Raw_message message);
     (INFO, csv_consumer_prince.Processed_JSON_message (PDict d))]
    ++ logged check
    ++ match outcome check with
       | Ok true =>
           [(INFO, csv_consumer_prince.STALL_DETECTED
                     (default PNone (assoc_get "timestamp" d)) v window_size)]
       | Ok false => []
       | Raise ex =>
           [(ERROR, if exn_eqb ex JSONDecodeError
                    then csv_consumer_prince.JSON_decoding_error message
                    else csv_consumer_prince.Error_processing_message message ex)]
       end.
Proof.
  intros H Hc Hv window check.
  now rewrite (csv_process_reading json_loads e message window_size
                 rolling_window d v H Hc Hv).
Qed.

Lemma stall_reported_with_reading_witness :
  logged (csv_consumer_prince.process_message json.loads (stall_environ 2 0.5)
            (health_body "450.25") 2 (pushed 2 [PFloat 450]))
  = [(DEBUG, csv_consumer_prince.Raw_message (health_body "450.25"));
     (INFO, csv_consumer_prince.Processed_JSON_message
              (PDict [("timestamp", PStr "2025-01-11T18:15:00Z");
                      ("steps", PInt 12500); ("heart_rate", PInt 80);
                      ("calories_burned", PFloat 450.25);
                      ("sleep_hours", PFloat 7);
                      ("hydration_liters", PFloat 2.5)]))]
    ++ logged (csv_consumer_prince.detect_stall (stall_environ 2 0.5)
                 (deque_append (PFloat 450.25) (pushed 2 [PFloat 450]))
                 (deque_append (PFloat 450.25) (pushed 2 [PFloat 450])))
    ++ match outcome (csv_consumer_prince.detect_stall (stall_environ 2 0.5)
                        (deque_append (PFloat 450.25) (pushed 2 [PFloat 450]))
                        (deque_append (PFloat 450.25) (pushed 2 [PFloat 450]))) with
       | Ok true =>
           [(INFO, csv_consumer_prince.STALL_DETECTED
                     (default PNone
                        (assoc_get "timestamp"
                           [("timestamp", PStr "2025-01-11T18:15:00Z");
                            ("steps", PInt 12500); ("heart_rate", PInt 80);
                            ("calories_burned", PFloat 450.25);
                            ("sleep_hours", PFloat 7);
                            ("hydration_liters", PFloat 2.5)]))
                     (PFloat 450.25) 2)]
       | Ok false => []
       | Raise ex =>
           [(ERROR, if exn_eqb ex JSONDecodeError
                    then csv_consumer_prince.JSON_decoding_error
                           (health_body "450.25")
                    else csv_consumer_prince.Error_processing_message
                           (health_body "450.25") ex)]
       end.
Proof.
  apply (stall_reported_with_reading json.loads (stall_environ 2 0.5)
           (health_body "450.25") 2 (pushed 2 [PFloat 450])
           [("timestamp", PStr "2025-01-11T18:15:00Z"); ("steps", PInt 12500);
            ("heart_rate", PInt 80); ("calories_burned", PFloat 450.25);
            ("sleep_hours", PFloat 7); ("hydration_liters", PFloat 2.5)]
           (PFloat 450.25));
    [vm_compute; reflexivity | reflexivity | reflexivity].
Defined.

(** X7. With a window size of zero the deque never holds anything, so
    every complete reading makes [max] fail on an empty window: the
    reading is logged as an error in processing with [ValueError]. *)
Theorem zero_window_always_errors
    (json_loads : string -> result pyval) (e : csv_consumer_prince.environ)
    (message : string) (window_size : Z)
    (d : list (string * pyval)) (v : pyval) :
  json_loads message = Ok (PDict d) ->
  incomplete d = false ->
  assoc_get "calories_burned" d = Some v ->
  configured_window_size e = Ok 0 ->
  csv_consumer_prince.process_message json_loads e message window_size
    {| items := []; maxlen := 0 |}
  = (Ok tt, {| items := []; maxlen := 0 |},
     [(DEBUG, csv_consumer_prince.Raw_message message);
      (INFO, csv_consumer_prince.Processed_JSON_message (PDict d));
      (INFO, csv_consumer_prince.Rolling_window_size 0);
      (ERROR, csv_consumer_prince.Error_processing_message message ValueError)]).
Proof.
  intros H Hc Hv Hw.
  rewrite (csv_process_reading json_loads e message window_size _ d v H Hc Hv).
  change (deque_append v {| items := []; maxlen := 0 |})
    with {| items := []; maxlen := 0 |}.
  unfold csv_consumer_prince.detect_stall.
  rewrite (bind_get_rolling_window_size e 0 _ _ Hw). reflexivity.
Qed.

Lemma zero_window_always_errors_witness :
  csv_consumer_prince.process_message json.loads (stall_environ 0 0.5)
    (health_body "450.25") 0 {| items := []; maxlen := 0 |}
  = (Ok tt, {| items := []; maxlen := 0 |},
     [(DEBUG, csv_consumer_prince.Raw_message (health_body "450.25"));
      (INFO, csv_consumer_prince.Processed_JSON_message
               (PDict [("timestamp", PStr "2025-01-11T18:15:00Z");
                       ("steps", PInt 12500); ("heart_rate", PInt 80);
                       ("calories_burned", PFloat 450.25);
                       ("sleep_hours", PFloat 7);
                       ("hydration_liters", PFloat 2.5)]));
      (INFO, csv_consumer_prince.Rolling_window_size 0);
      (ERROR, csv_consumer_prince.Error_processing_message (health_body "450.25")
                ValueError)]).
Proof.
  apply (zero_window_always_errors json.loads (stall_environ 0 0.5)
           (health_body "450.25") 0
           [("timestamp", PStr "2025-01-11T18:15:00Z"); ("steps", PInt 12500);
            ("heart_rate", PInt 80); ("calories_burned", PFloat 450.25);
            ("sleep_hours", PFloat 7); ("hydration_liters", PFloat 2.5)]
           (PFloat 450.25));
    [vm_compute; reflexivity | reflexivity | reflexivity | reflexivity].
Defined.

(** X8. A negative window size that fits a [Py_ssize_t] makes
    [deque(maxlen=...)] raise [ValueError] before the loop of [main] is
    entered: the exception leaves [main] and no record is polled. *)
Theorem negative_window_size_stops_main
    (json_loads : string -> result pyval) (e : csv_consumer_prince.environ)
    (consumer : list ConsumerRecord) (w : Z) :
  configured_window_size e = Ok w ->
  - 2 ^ 63 <= w < 0 ->
  csv_consumer_prince.main json_loads e consumer
  = (Raise ValueError,
     [(INFO, csv_consumer_prince.START_consumer);
      (INFO, csv_consumer_prince.Kafka_topic
               (default "unknown_topic" (csv_consumer_prince.HEALTH_TOPIC e)));
      (INFO, csv_consumer_prince.Kafka_consumer_group_id
               (default "default_group"
                  (csv_consumer_prince.HEALTH_CONSUMER_GROUP_ID e)));
      (INFO, csv_consumer_prince.Rolling_window_size w);
      (INFO, csv_consumer_prince.Consumer_topic_group
               (default "unknown_topic" (csv_consumer_prince.HEALTH_TOPIC e))
               (default "default_group"
                  (csv_consumer_prince.HEALTH_CONSUMER_GROUP_ID e)));
      (INFO, csv_consumer_prince.Rolling_window_size w)]).
Proof.
  intros Hw Hneg. unfold csv_consumer_prince.main,
    csv_consumer_prince.get_kafka_topic,
    csv_consumer_prince.get_kafka_consumer_group_id.
  rewrite bind_emit, bind_assoc, bind_emit, bind_ret, bind_assoc, bind_emit, bind_ret.
  rewrite (bind_get_rolling_window_size e w _ tt Hw), !bind_emit.
  rewrite (deque_new_negative w Hneg), bind_lift_Raise. reflexivity.
Qed.

Lemma negative_window_size_stops_main_witness :
  csv_consumer_prince.main json.loads (stall_environ (-1) 0.5)
    [health_record "450.25"]
  = (Raise ValueError,
     [(INFO, csv_consumer_prince.START_consumer);
      (INFO, csv_consumer_prince.Kafka_topic
               (default "unknown_topic"
                  (csv_consumer_prince.HEALTH_TOPIC (stall_environ (-1) 0.5))));
      (INFO, csv_consumer_prince.Kafka_consumer_group_id
               (default "default_group"
                  (csv_consumer_prince.HEALTH_CONSUMER_GROUP_ID
                     (stall_environ (-1) 0.5))));
      (INFO, csv_consumer_prince.Rolling_window_size (-1));
      (INFO, csv_consumer_prince.Consumer_topic_group
               (default "unknown_topic"
                  (csv_consumer_prince.HEALTH_TOPIC (stall_environ (-1) 0.5)))
               (default "default_group"
                  (csv_consumer_prince.HEALTH_CONSUMER_GROUP_ID
                     (stall_environ (-1) 0.5))));
      (INFO, csv_consumer_prince.Rolling_window_size (-1))]).
Proof.
  apply (negative_window_size_stops_main json.loads (stall_environ (-1) 0.5)
           [health_record "450.25"] (-1)); [reflexivity | lia].
Defined.

(** ** The loop of the stall consumer, record by record *)

Lemma csv_main_run (json_loads : string -> result pyval)
    (e : csv_consumer_prince.environ) consumer w :
  configured_window_size e = Ok w -> 0 <= w < 2 ^ 63 ->
  let run := csv_consumer_prince.poll json_loads e consumer w
               {| items := []; maxlen := w |} in
  exists before,
    csv_consumer_prince.main json_loads e consumer
    = (Ok (store run),
       before ++ logged run
       ++ match outcome run with
          | Ok _ => []
          | Raise ex => [(ERROR, csv_consumer_prince.Error_while_consuming ex)]
          end
       ++ [(INFO, csv_consumer_prince.Consumer_closed
                    (default "unknown_topic" (csv_consumer_prince.HEALTH_TOPIC e)))]).
Proof.
  intros Hw Hpos run. unfold csv_consumer_prince.main,
    csv_consumer_prince.get_kafka_topic,
    csv_consumer_prince.get_kafka_consumer_group_id.
  rewrite bind_emit, bind_assoc, bind_emit, bind_ret, bind_assoc, bind_emit, bind_ret.
  rewrite (bind_get_rolling_window_size e w _ tt Hw), !bind_emit.
  rewrite (deque_new_fits w Hpos).
  rewrite bind_lift_Ok. cbn [prepend ret app].
  unfold try_except. rewrite bind_emit. fold run.
  set (topic := default "unknown_topic" (csv_consumer_prince.HEALTH_TOPIC e)).
  set (group := default "default_group"
                  (csv_consumer_prince.HEALTH_CONSUMER_GROUP_ID e)).
  exists [(INFO, csv_consumer_prince.START_consumer);
          (INFO, csv_consumer_prince.Kafka_topic topic);
          (INFO, csv_consumer_prince.Kafka_consumer_group_id group);
          (INFO, csv_consumer_prince.Rolling_window_size w);
          (INFO, csv_consumer_prince.Consumer_topic_group topic group);
          (INFO, csv_consumer_prince.Rolling_window_size w);
          (INFO, csv_consumer_prince.Polling_messages topic)].
  destruct run as [[[[] | ex] s] l];
    cbn [prepend emit store logged outcome app]; rewrite <- ?app_assoc;
    reflexivity.
Qed.

Lemma csv_poll_app (json_loads : string -> result pyval)
    (e : csv_consumer_prince.environ) pre rest window_size rolling_window :
  forallb decodable pre = true ->
  let first := csv_consumer_prince.poll json_loads e pre window_size rolling_window in
  outcome first = Ok tt /\
  csv_consumer_prince.poll json_loads e (pre ++ rest) window_size rolling_window
  = prepend (logged first)
      (csv_consumer_prince.poll json_loads e rest window_size (store first)).
Proof.
  revert rolling_window. induction pre as [| message pre IH];
    intros rolling_window Hall; cbv zeta.
  - split; [reflexivity |]. simpl. now rewrite prepend_nil.
  - simpl in Hall. apply andb_prop in Hall. destruct Hall as [Hm Hall].
    unfold decodable in Hm.
    destruct (csv_consumer_prince.message_str_of message) as [message_str |] eqn:Hs;
      [| discriminate].
    simpl app. rewrite !(csv_poll_cons _ _ _ _ _ _ _ Hs).
    destruct (IH (store (csv_consumer_prince.process_message json_loads e
                           message_str window_size rolling_window)) Hall)
      as [Ho Happ].
    rewrite outcome_prepend, store_prepend, logged_prepend, Happ.
    split; [exact Ho |]. now rewrite prepend_prepend.
Qed.

(** X9. Once the deque is made (its bound [w] fits a [Py_ssize_t]),
    bytes that are not UTF-8 raise [UnicodeDecodeError] in the loop of
    [main], outside [process_message]: the loop ends there. The window is
    left as the records before made it, the records after are never
    processed, and the error is logged by [main]. *)
Theorem undecodable_bytes_end_polling
    (json_loads : string -> result pyval) (e : csv_consumer_prince.environ)
    (pre rest : list ConsumerRecord) (bad : ConsumerRecord) (b : string) (w : Z) :
  configured_window_size e = Ok w ->
  0 <= w < 2 ^ 63 ->
  forallb decodable pre = true ->
  value bad = VBytes b ->
  utf8_well_formed b = false ->
  fst (csv_consumer_prince.main json_loads e (pre ++ bad :: rest))
  = fst (csv_consumer_prince.main json_loads e pre) /\
  In (ERROR, csv_consumer_prince.Error_while_consuming UnicodeDecodeError)
    (snd (csv_consumer_prince.main json_loads e (pre ++ bad :: rest))).
Proof.
  intros Hw Hpos Hpre Hv Hb.
  assert (Hbad : csv_consumer_prince.message_str_of bad = Raise UnicodeDecodeError).
  { unfold csv_consumer_prince.message_str_of, bytes_decode. now rewrite Hv, Hb. }
  destruct (csv_main_run json_loads e pre w Hw Hpos) as [l1 H1].
  destruct (csv_main_run json_loads e (pre ++ bad :: rest) w Hw Hpos) as [l2 H2].
  destruct (csv_poll_app json_loads e pre (bad :: rest) w
              {| items := []; maxlen := w |} Hpre) as [_ Happ].
  rewrite (csv_poll_undecodable _ _ _ _ _ _ _ Hbad) in Happ.
  rewrite Happ in H2. rewrite H1, H2.
  destruct (csv_consumer_prince.poll json_loads e pre w _) as [[r s] l].
  unfold store, logged, outcome. simpl. split; [reflexivity |].
  rewrite !in_app_iff. right. right. now left.
Qed.

Lemma undecodable_bytes_end_polling_witness :
  let bad := {| offset := 1; value := VBytes (String (json.chr 200) "") |} in
  fst (csv_consumer_prince.main json.loads (stall_environ 3 0.5)
         ([health_record "450.25"] ++ bad :: [health_record "451"]))
  = fst (csv_consumer_prince.main json.loads (stall_environ 3 0.5)
           [health_record "450.25"]) /\
  In (ERROR, csv_consumer_prince.Error_while_consuming UnicodeDecodeError)
    (snd (csv_consumer_prince.main json.loads (stall_environ 3 0.5)
            ([health_record "450.25"] ++ bad :: [health_record "451"]))).
Proof.
  apply (undecodable_bytes_end_polling json.loads (stall_environ 3 0.5)
           [health_record "450.25"] [health_record "451"]
           {| offset := 1; value := VBytes (String (json.chr 200) "") |}
           (String (json.chr 200) "") 3);
    [reflexivity | lia | reflexivity | reflexivity | reflexivity].
Defined.

(** X10. The threshold is read only once the window is full: when its
    variable does not convert to a float, the detector still answers false
    on a window that is not full, and raises the conversion error on a
    full window of floats. *)
Theorem unreadable_threshold_raises_when_full
    (e : csv_consumer_prince.environ) {S} (s : S) (d : deque)
    (w : Z) (ex : exn) (vs : list float) (m n : float) :
  configured_window_size e = Ok w ->
  configured_threshold e = Raise ex ->
  items d = map PFloat vs ->
  Z.of_nat (length vs) = w ->
  window_max vs = Some m ->
  window_min vs = Some n ->
  csv_consumer_prince.detect_stall e d s
  = (Raise ex, s, [(INFO, csv_consumer_prince.Rolling_window_size w)]) /\
  (forall short : deque,
     deque_len short < w ->
     outcome (csv_consumer_prince.detect_stall e short s) = Ok false).
Proof.
  intros Hw Ht Hd Hlen Hmax Hmin. split.
  - unfold csv_consumer_prince.detect_stall.
    rewrite (bind_get_rolling_window_size e w _ s Hw).
    unfold deque_len.
    rewrite Hd, length_map, Hlen, Z.ltb_irrefl.
    rewrite (py_max_floats vs m Hmax), bind_lift_Ok.
    rewrite (py_min_floats vs n Hmin), bind_lift_Ok.
    change (py_sub (PFloat m) (PFloat n)) with (Ok (PFloat (m - n)%float)).
    rewrite bind_lift_Ok.
    unfold csv_consumer_prince.get_stall_threshold.
    unfold configured_threshold in Ht.
    rewrite bind_assoc, Ht, bind_lift_Raise. reflexivity.
  - intros short Hshort.
    now rewrite (detect_stall_short_window e s short w Hw Hshort).
Qed.

Lemma unreadable_threshold_raises_when_full_witness :
  let e := {| csv_consumer_prince.HEALTH_TOPIC := None;
              csv_consumer_prince.HEALTH_CONSUMER_GROUP_ID := None;
              csv_consumer_prince.HEALTH_STALL_THRESHOLD_F := Some (Raise ValueError);
              csv_consumer_prince.HEALTH_ROLLING_WINDOW_SIZE := Some (Ok 2) |} in
  csv_consumer_prince.detect_stall e (pushed 2 [PFloat 1; PFloat 1.5]) tt
  = (Raise ValueError, tt, [(INFO, csv_consumer_prince.Rolling_window_size 2)]) /\
  (forall short : deque,
     deque_len short < 2 ->
     outcome (csv_consumer_prince.detect_stall e short tt) = Ok false).
Proof.
  apply (unreadable_threshold_raises_when_full
           {| csv_consumer_prince.HEALTH_TOPIC := None;
              csv_consumer_prince.HEALTH_CONSUMER_GROUP_ID := None;
              csv_consumer_prince.HEALTH_STALL_THRESHOLD_F := Some (Raise ValueError);
              csv_consumer_prince.HEALTH_ROLLING_WINDOW_SIZE := Some (Ok 2) |}
           tt (pushed 2 [PFloat 1; PFloat 1.5]) 2 ValueError [1; 1.5]%float 1.5 1);
    reflexivity.
Defined.

(** ** Windows of integers *)

Lemma extremum_loop_max_ints (best : Z) (rest : list Z) :
  extremum_loop Py_GT (PInt best) (map PInt rest) = Ok (PInt (greatest best rest)).
Proof.
  unfold greatest. revert best.
  induction rest as [| x rest IH]; intros best; simpl; [reflexivity |].
  destruct (Z.compare_spec x best); simpl; rewrite IH; do 2 f_equal; f_equal; lia.
Qed.

Lemma extremum_loop_min_ints (best : Z) (rest : list Z) :
  extremum_loop Py_LT (PInt best) (map PInt rest) = Ok (PInt (smallest best rest)).
Proof.
  unfold smallest. revert best.
  induction rest as [| x rest IH]; intros best; simpl; [reflexivity |].
  destruct (Z.compare_spec x best); simpl; rewrite IH; do 2 f_equal; f_equal; lia.
Qed.

(** X11. On a full window of integers the range is the exact difference
    of the greatest and the smallest value. When its decimal text has at
    most 4300 digits, the detector returns whether the range is at most
    the threshold as numbers, without rounding the range to a float, and
    logs it; when the text is longer, the record of the range cannot be
    formatted and the detector raises [ValueError] after the threshold
    was read. *)
Theorem integer_window_range_is_exact
    (e : csv_consumer_prince.environ) {S} (s : S) (d : deque)
    (w : Z) (t : float) (h : Z) (rest : list Z) :
  configured_window_size e = Ok w ->
  configured_threshold e = Ok t ->
  items d = map PInt (h :: rest) ->
  Z.of_nat (length (h :: rest)) = w ->
  let range := greatest h rest - smallest h rest in
  csv_consumer_prince.detect_stall e d s
  = if int_str_digits range <=? max_str_digits
    then (Ok (int_le_float range t), s,
          [(INFO, csv_consumer_prince.Rolling_window_size w);
           (INFO, csv_consumer_prince.Max_stall_range t);
           (DEBUG, csv_consumer_prince.Range_stalled (PInt range)
                     (int_le_float range t))])
    else (Raise ValueError, s,
          [(INFO, csv_consumer_prince.Rolling_window_size w);
           (INFO, csv_consumer_prince.Max_stall_range t)]).
Proof.
  intros Hw Ht Hd Hlen range.
  unfold csv_consumer_prince.detect_stall.
  rewrite (bind_get_rolling_window_size e w _ s Hw).
  unfold deque_len.
  rewrite Hd, length_map, Hlen, Z.ltb_irrefl.
  cbn [map py_max py_min].
  rewrite extremum_loop_max_ints, bind_lift_Ok.
  rewrite extremum_loop_min_ints, bind_lift_Ok.
  change (py_sub (PInt (greatest h rest)) (PInt (smallest h rest)))
    with (Ok (PInt range)).
  rewrite bind_lift_Ok, (bind_get_stall_threshold e t _ s Ht).
  change (py_richcompare Py_LE (PInt range) (PFloat t))
    with (Ok (cmp_holds Py_LE (option_map CompOpp (float_compare_Z t range)))).
  rewrite int_le_float_exact, bind_lift_Ok.
  unfold py_format.
  destruct (Z.ltb_spec max_str_digits (int_str_digits range));
    destruct (Z.leb_spec (int_str_digits range) max_str_digits); try lia.
  - now rewrite bind_lift_Raise.
  - rewrite bind_lift_Ok. reflexivity.
Qed.

Lemma integer_window_range_is_exact_witness :
  csv_consumer_prince.detect_stall (stall_environ 2 9007199254740992)
    (pushed 2 [PInt 0; PInt 9007199254740993]) tt
  = (Ok false, tt,
     [(INFO, csv_consumer_prince.Rolling_window_size 2);
      (INFO, csv_consumer_prince.Max_stall_range 9007199254740992);
      (DEBUG, csv_consumer_prince.Range_stalled (PInt 9007199254740993) false)]) /\
  float_of_int 9007199254740993 = Ok 9007199254740992%float.
Proof.
  split; [| vm_compute; reflexivity].
  exact (integer_window_range_is_exact (stall_environ 2 9007199254740992) tt
           (pushed 2 [PInt 0; PInt 9007199254740993]) 2 9007199254740992
           0 [9007199254740993] eq_refl eq_refl eq_refl eq_refl).
Defined.

(** Two readings that have a text of 4300 digits each, and a range that
    has none: the detector raises. *)
Example range_without_text :
  let big := 10 ^ 4300 - 1 in
  (py_format (PInt big) = Ok tt /\ py_format (PInt (- big)) = Ok tt) /\
  outcome (csv_consumer_prince.detect_stall (stall_environ 2 0.5)
             (pushed 2 [PInt big; PInt (- big)]) tt)
  = Raise ValueError.
Proof. vm_compute. repeat split. Qed.

(** X12. When every record is text and the configured size [w] is a
    bound a deque takes, the window [main] ends with is the new window of
    that size after each message was applied in the order of arrival. *)
Theorem main_folds_window_transition
    (json_loads : string -> result pyval) (e : csv_consumer_prince.environ)
    (texts : list (Z * string)) (w : Z) :
  configured_window_size e = Ok w ->
  0 <= w < 2 ^ 63 ->
  fst (csv_consumer_prince.main json_loads e (text_records texts))
  = Ok (fold_left (fun window r => window_after json_loads (snd r) window) texts
          {| items := []; maxlen := w |}).
Proof.
  intros Hw Hpos.
  destruct (csv_main_window json_loads e (text_records texts) w Hw Hpos) as [log ->].
  simpl. f_equal.
  generalize {| items := []; maxlen := w |} as window.
  induction texts as [| [o message] texts IH]; intros window; [reflexivity |].
  unfold text_records. cbn [map fst snd fold_left].
  rewrite (csv_poll_cons json_loads e {| offset := o; value := VStr message |}
             _ w window message eq_refl), store_prepend.
  fold (text_records texts). rewrite IH. f_equal.
  apply csv_store_window_after.
Qed.

Lemma main_folds_window_transition_witness :
  fst (csv_consumer_prince.main json.loads (stall_environ 2 0.5)
         (text_records [(0, health_body "450.25"); (1, "{not json");
                        (2, health_body "451"); (3, health_body "452")]))
  = Ok (fold_left (fun window r => window_after json.loads (snd r) window)
          [(0, health_body "450.25"); (1, "{not json");
           (2, health_body "451"); (3, health_body "452")]
          {| items := []; maxlen := 2 |}).
Proof.
  apply (main_folds_window_transition json.loads (stall_environ 2 0.5)
           [(0, health_body "450.25"); (1, "{not json");
            (2, health_body "451"); (3, health_body "452")] 2);
    [reflexivity | lia].
Defined.

(** X13. A complete reading that fills the window with floats is
    reported as a stall exactly when the range of the window is at most
    the threshold: the log then ends with the stall, carrying the
    timestamp and the metric of the reading and the window size. *)
Theorem stall_alert_iff_within_threshold
    (json_loads : string -> result pyval) (e : csv_consumer_prince.environ)
    (message : string) (window_size : Z) (rolling_window : deque)
    (d : list (string * pyval)) (v : pyval)
    (w : Z) (t : float) (vs : list float) (m n : float) :
  json_loads message = Ok (PDict d) ->
  incomplete d = false ->
  assoc_get "calories_burned" d = Some v ->
  configured_window_size e = Ok w ->
  configured_threshold e = Ok t ->
  items (deque_append v rolling_window) = map PFloat vs ->
  Z.of_nat (length vs) = w ->
  window_max vs = Some m ->
  window_min vs = Some n ->
  logged (csv_consumer_prince.process_message json_loads e message window_size
            rolling_window)
  = [(DEBUG, csv_consumer_prince.Raw_message message);
     (INFO, csv_consumer_prince.Processed_JSON_message (PDict d));
     (INFO, csv_consumer_prince.Rolling_window_size w);
     (INFO, csv_consumer_prince.Max_stall_range t);
     (DEBUG, csv_consumer_prince.Range_stalled (PFloat (m - n)) (m - n <=? t)%float)]
    ++ (if (m - n <=? t)%float
        then [(INFO, csv_consumer_prince.STALL_DETECTED
                       (default PNone (assoc_get "timestamp" d)) v window_size)]
        else []).
Proof.
  intros H Hc Hv Hw Ht Hd Hlen Hmax Hmin.
  rewrite (csv_process_reading json_loads e message window_size rolling_window
             d v H Hc Hv).
  rewrite (detect_stall_full_window e _ _ w t vs m n Hw Ht Hd Hlen Hmax Hmin).
  unfold logged, outcome. simpl.
  destruct (m - n <=? t)%float; reflexivity.
Qed.

Lemma stall_alert_iff_within_threshold_witness :
  logged (csv_consumer_prince.process_message json.loads (stall_environ 2 0.5)
            (health_body "450.25") 2 (pushed 2 [PFloat 450]))
  = [(DEBUG, csv_consumer_prince.Raw_message (health_body "450.25"));
     (INFO, csv_consumer_prince.Processed_JSON_message
              (PDict [("timestamp", PStr "2025-01-11T18:15:00Z");
                      ("steps", PInt 12500); ("heart_rate", PInt 80);
                      ("calories_burned", PFloat 450.25);
                      ("sleep_hours", PFloat 7);
                      ("hydration_liters", PFloat 2.5)]));
     (INFO, csv_consumer_prince.Rolling_window_size 2);
     (INFO, csv_consumer_prince.Max_stall_range 0.5);
     (DEBUG, csv_consumer_prince.Range_stalled (PFloat (450.25 - 450))
               (450.25 - 450 <=? 0.5)%float)]
    ++ (if (450.25 - 450 <=? 0.5)%float
        then [(INFO, csv_consumer_prince.STALL_DETECTED
                       (default PNone
                          (assoc_get "timestamp"
                             [("timestamp", PStr "2025-01-11T18:15:00Z");
                              ("steps", PInt 12500); ("heart_rate", PInt 80);
                              ("calories_burned", PFloat 450.25);
                              ("sleep_hours", PFloat 7);
                              ("hydration_liters", PFloat 2.5)]))
                       (PFloat 450.25) 2)]
        else []).
Proof.
  apply (stall_alert_iff_within_threshold json.loads (stall_environ 2 0.5)
           (health_body "450.25") 2 (pushed 2 [PFloat 450])
           [("timestamp", PStr "2025-01-11T18:15:00Z"); ("steps", PInt 12500);
            ("heart_rate", PInt 80); ("calories_burned", PFloat 450.25);
            ("sleep_hours", PFloat 7); ("hydration_liters", PFloat 2.5)]
           (PFloat 450.25) 2 0.5 [450; 450.25]%float 450.25 450);
    [vm_compute; reflexivity | reflexivity | reflexivity | reflexivity
    | reflexivity | reflexivity | reflexivity | reflexivity | reflexivity].
Defined.

(** ** The aggregation consumer *)

Lemma json_store_table_after (json_loads : string -> result pyval)
    message (table : gmap pykey (list pyval)) :
  store (json_consumer_prince.process_message json_loads message table)
  = table_after json_loads message table.
Proof.
  unfold table_after.
  destruct (json_loads message) as [v | ex] eqn:H.
  - destruct v;
      try (rewrite (json_process_not_dict _ _ _ _ H) by reflexivity; reflexivity).
    destruct (py_key (payload_symbol d)) as [k | ex] eqn:Hk.
    + now rewrite (json_process_dict _ _ _ d k H Hk).
    + exact (json_process_unhashable _ _ _ d ex H Hk).
  - exact (json_process_raises _ _ _ ex H).
Qed.

(** X14. Neither [process_message] nor [main] of the aggregation consumer
    lets an exception out, whatever the records and the decoder do. *)
Theorem aggregation_never_raises
    (json_loads : string -> result pyval) (e : json_consumer_prince.environ)
    (message : string) (consumer : list (Z * string))
    (table : gmap pykey (list pyval)) :
  outcome (json_consumer_prince.process_message json_loads message table) = Ok tt /\
  outcome (json_consumer_prince.main json_loads e consumer table) = Ok tt.
Proof.
  split; [apply json_process_never_raises |].
  apply (json_main_store json_loads e consumer table).
Qed.

(** X15. The table after a message is the table before with the price
    appended to the series of the symbol when the message is an object
    with a hashable symbol, and the table before in every other case. *)
Theorem table_transition
    (json_loads : string -> result pyval) (message : string)
    (table : gmap pykey (list pyval)) :
  store (json_consumer_prince.process_message json_loads message table)
  = table_after json_loads message table.
Proof. apply json_store_table_after. Qed.

(** X16. The table [main] ends with is the table it started with after
    each message was applied in the order of arrival. *)
Theorem main_folds_table_transition
    (json_loads : string -> result pyval) (e : json_consumer_prince.environ)
    (consumer : list (Z * string)) (table : gmap pykey (list pyval)) :
  store (json_consumer_prince.main json_loads e consumer table)
  = fold_left (fun t r => table_after json_loads (snd r) t) consumer table.
Proof.
  destruct (json_main_store json_loads e consumer table) as [_ ->].
  revert table. induction consumer as [| [o message] rest IH]; intros table;
    [reflexivity |].
  rewrite json_poll_cons, store_prepend, IH, json_store_table_after. reflexivity.
Qed.

(** X17. A symbol that is a list or an object cannot be a key: the
    message is logged as an error in processing with [TypeError], after
    the record of its fields, and the table is left as it was. *)
Theorem unhashable_symbol_rejected
    (json_loads : string -> result pyval) (message : string)
    (table : gmap pykey (list pyval)) (d : list (string * pyval)) :
  json_loads message = Ok (PDict d) ->
  py_key (payload_symbol d) = Raise TypeError ->
  json_consumer_prince.process_message json_loads message table
  = (Ok tt, table,
     [(DEBUG, json_consumer_prince.Raw_message message);
      (INFO, json_consumer_prince.Processed_JSON_message (PDict d));
      (INFO, json_consumer_prince.Message_received (payload_symbol d)
               (payload_price d)
               (default (PStr "unknown_time") (assoc_get "timestamp" d)));
      (ERROR, json_consumer_prince.Error_processing_message TypeError)]).
Proof.
  intros H Hk. unfold json_consumer_prince.process_message, try_except.
  rewrite bind_emit, H, bind_lift_Ok, bind_emit.
  cbn [is_dict].
  rewrite !py_get_dict, !bind_lift_Ok, bind_emit.
  fold (payload_symbol d) (payload_price d).
  unfold json_consumer_prince.getitem at 1.
  rewrite bind_assoc, Hk, bind_lift_Raise. reflexivity.
Qed.

Lemma unhashable_symbol_rejected_witness :
  let d := [("timestamp", PStr "2025-01-25T10:00:00");
            ("symbol", PList [PStr "AAPL"]); ("price", PFloat 150.25)] in
  let table : gmap pykey (list pyval) := {[ KStr "AAPL" := [PFloat 150.25] ]} in
  json_consumer_prince.process_message json.loads
    (price_body "['AAPL']" "150.25") table
  = (Ok tt, table,
     [(DEBUG, json_consumer_prince.Raw_message (price_body "['AAPL']" "150.25"));
      (INFO, json_consumer_prince.Processed_JSON_message (PDict d));
      (INFO, json_consumer_prince.Message_received (payload_symbol d)
               (payload_price d)
               (default (PStr "unknown_time") (assoc_get "timestamp" d)));
      (ERROR, json_consumer_prince.Error_processing_message TypeError)]).
Proof.
  apply (unhashable_symbol_rejected json.loads (price_body "['AAPL']" "150.25")
           {[ KStr "AAPL" := [PFloat 150.25] ]}
           [("timestamp", PStr "2025-01-25T10:00:00");
            ("symbol", PList [PStr "AAPL"]); ("price", PFloat 150.25)]);
    [vm_compute; reflexivity | reflexivity].
Defined.

(** X18. An object without [symbol] is filed under the symbol
    [unknown]: its price is appended to that series. *)
Theorem missing_symbol_goes_to_unknown
    (json_loads : string -> result pyval) (message : string)
    (table : gmap pykey (list pyval)) (d : list (string * pyval)) :
  json_loads message = Ok (PDict d) ->
  assoc_get "symbol" d = None ->
  store (json_consumer_prince.process_message json_loads message table)
  = <[KStr "unknown" := series (KStr "unknown") table ++ [payload_price d]]> table.
Proof.
  intros H Hs.
  assert (Hk : py_key (payload_symbol d) = Ok (KStr "unknown"))
    by (unfold payload_symbol; now rewrite Hs).
  now rewrite (json_process_dict json_loads message table d _ H Hk).
Qed.

Lemma missing_symbol_goes_to_unknown_witness :
  let message := body "{'price': 150.25}" in
  let table : gmap pykey (list pyval) := {[ KStr "AAPL" := [PFloat 99.5] ]} in
  store (json_consumer_prince.process_message json.loads message table)
  = <[KStr "unknown" := series (KStr "unknown") table
                        ++ [payload_price [("price", PFloat 150.25)]]]> table.
Proof.
  apply (missing_symbol_goes_to_unknown json.loads (body "{'price': 150.25}")
           {[ KStr "AAPL" := [PFloat 99.5] ]} [("price", PFloat 150.25)]);
    [vm_compute; reflexivity | reflexivity].
Defined.

(** X19. For an accepted message the last record logged is the update,
    and it carries the whole series of the symbol as the table now
    holds it. *)
Theorem update_logs_whole_series
    (json_loads : string -> result pyval) (message : string)
    (table : gmap pykey (list pyval)) (d : list (string * pyval)) (k : pykey) :
  json_loads message = Ok (PDict d) ->
  py_key (payload_symbol d) = Ok k ->
  let run := json_consumer_prince.process_message json_loads message table in
  last (logged run)
  = Some (INFO, json_consumer_prince.Updated_prices (payload_symbol d)
                  (series k (store run))).
Proof.
  intros H Hk run. subst run.
  rewrite (json_process_dict json_loads message table d k H Hk).
  unfold store, logged, series. simpl. now rewrite lookup_insert_eq.
Qed.

Lemma update_logs_whole_series_witness :
  let table : gmap pykey (list pyval) := {[ KStr "AAPL" := [PFloat 150.25] ]} in
  let run := json_consumer_prince.process_message json.loads
               (price_body "'AAPL'" "151.5") table in
  last (logged run)
  = Some (INFO, json_consumer_prince.Updated_prices
                  (payload_symbol [("timestamp", PStr "2025-01-25T10:00:00");
                                   ("symbol", PStr "AAPL");
                                   ("price", PFloat 151.5)])
                  (series (KStr "AAPL") (store run))).
Proof.
  apply (update_logs_whole_series json.loads (price_body "'AAPL'" "151.5")
           {[ KStr "AAPL" := [PFloat 150.25] ]}
           [("timestamp", PStr "2025-01-25T10:00:00"); ("symbol", PStr "AAPL");
            ("price", PFloat 151.5)] (KStr "AAPL"));
    [vm_compute; reflexivity | reflexivity].
Defined.

Lemma appended_at_most_one (json_loads : string -> result pyval) k message :
  (length (appended json_loads k message) <= 1)%nat.
Proof.
  unfold appended.
  destruct (json_loads message) as [[| | | | | | d] |]; simpl; try lia.
  destruct (py_key (payload_symbol d)) as [k' |]; simpl; try lia.
  destruct (decide (k' = k)); simpl; lia.
Qed.

(** X20. Whatever table [main] starts from, every series it holds is kept
    in front of what the records add, and the records add at most one
    price each. *)
Theorem series_only_grow
    (json_loads : string -> result pyval) (e : json_consumer_prince.environ)
    (consumer : list (Z * string)) (table : gmap pykey (list pyval)) (k : pykey) :
  exists added,
    series k (store (json_consumer_prince.main json_loads e consumer table))
    = series k table ++ added /\
    (length added <= length consumer)%nat.
Proof.
  destruct (json_main_store json_loads e consumer table) as [_ ->].
  rewrite json_poll_series. eexists. split; [reflexivity |].
  induction consumer as [| [o message] rest IH]; simpl; [lia |].
  rewrite length_app.
  pose proof (appended_at_most_one json_loads k message). lia.
Qed.
